(** * Verification of the product-creation endpoint

    Shallow embedding of [create_product] (file
    [Code Review & Debugging/create_product.py]) and of the parts of the
    Python runtime it calls: JSON-decoded values, [str], [repr], the string
    methods [strip] and [upper], [', '.join], the [in] operator, subscripts,
    and [decimal.Decimal] construction and comparison.

    Text is modelled as Rocq [string]s read as ASCII text; characters above
    127 are carried through unchanged by every operation. *)

From Stdlib Require Import ZArith NArith List String Ascii Bool Lia.
From Stdlib Require Import SpecFloat.
Import ListNotations.

Set Warnings "-register-all".

Local Open Scope string_scope.
Local Open Scope Z_scope.

(** ** Python values, exceptions *)

Module Py.

(** A value as [request.get_json()] hands it over: [None], a bool, an int
    of any size, a binary float, a string, a list, or a dict whose keys are
    strings.  A dict is an association list in insertion order; a key is
    looked up at its first occurrence. *)
Inductive pyvalue : Type :=
| PNone
| PBool (b : bool)
| PInt (z : Z)
| PFloat (f : spec_float)
| PStr (s : string)
| PList (l : list pyvalue)
| PDict (kvs : list (string * pyvalue)).

(** The exception classes that can reach one of the three [except]
    clauses.  [OtherException] stands for every other subclass of
    [Exception]. *)
Inductive exn_class : Type :=
| TypeError
| AttributeError
| KeyError
| InvalidOperation
| IntegrityError
| OtherException.

(** An exception, with the text [str(e)] gives. *)
Record Exn : Type := mkExn { exn_class_of : exn_class; exn_str : string }.

Definition result (A : Type) : Type := (Exn + A)%type.

Definition exn_class_eqb (a b : exn_class) : bool :=
  match a, b with
  | TypeError, TypeError
  | AttributeError, AttributeError
  | KeyError, KeyError
  | InvalidOperation, InvalidOperation
  | IntegrityError, IntegrityError
  | OtherException, OtherException => true
  | _, _ => false
  end.

(** [type(v).__name__] *)
Definition type_name (v : pyvalue) : string :=
  match v with
  | PNone => "NoneType"
  | PBool _ => "bool"
  | PInt _ => "int"
  | PFloat _ => "float"
  | PStr _ => "str"
  | PList _ => "list"
  | PDict _ => "dict"
  end.

(** ** Strings *)

Definition code (c : ascii) : N := N_of_ascii c.

(** [str.isspace] on ASCII: tab, line feed, vertical tab, form feed,
    carriage return, the four separators 28..31, and space. *)
Definition is_space (c : ascii) : bool :=
  let n := code c in
  ((9 <=? n) && (n <=? 13) || (28 <=? n) && (n <=? 32))%N.

Definition is_digit (c : ascii) : bool :=
  let n := code c in ((48 <=? n) && (n <=? 57))%N.

Definition upper_char (c : ascii) : ascii :=
  let n := code c in
  if ((97 <=? n) && (n <=? 122))%N then ascii_of_N (n - 32) else c.

Definition lower_char (c : ascii) : ascii :=
  let n := code c in
  if ((65 <=? n) && (n <=? 90))%N then ascii_of_N (n + 32) else c.

Fixpoint lstrip (s : string) : string :=
  match s with
  | EmptyString => EmptyString
  | String c r => if is_space c then lstrip r else s
  end.

Definition is_empty (s : string) : bool :=
  match s with EmptyString => true | _ => false end.

Fixpoint rstrip (s : string) : string :=
  match s with
  | EmptyString => EmptyString
  | String c r =>
      let r' := rstrip r in
      if is_space c && is_empty r' then EmptyString else String c r'
  end.

(** [s.strip()] *)
Definition strip (s : string) : string := rstrip (lstrip s).

Fixpoint map_string (f : ascii -> ascii) (s : string) : string :=
  match s with
  | EmptyString => EmptyString
  | String c r => String (f c) (map_string f r)
  end.

(** [s.upper()] *)
Definition upper (s : string) : string := map_string upper_char s.

Definition lower (s : string) : string := map_string lower_char s.

(** [sep.join(l)] *)
Fixpoint join (sep : string) (l : list string) : string :=
  match l with
  | [] => ""
  | [x] => x
  | x :: r => x ++ sep ++ join sep r
  end.

Fixpoint starts_with (p s : string) : bool :=
  match p, s with
  | EmptyString, _ => true
  | String a p', String b s' => Ascii.eqb a b && starts_with p' s'
  | String _ _, EmptyString => false
  end.

(** [needle in hay] for two strings *)
Fixpoint contains (needle hay : string) : bool :=
  starts_with needle hay ||
  match hay with
  | EmptyString => false
  | String _ r => contains needle r
  end.

Fixpoint has_char (c : ascii) (s : string) : bool :=
  match s with
  | EmptyString => false
  | String a r => Ascii.eqb a c || has_char c r
  end.

Fixpoint remove_char (c : ascii) (s : string) : string :=
  match s with
  | EmptyString => EmptyString
  | String a r => if Ascii.eqb a c then remove_char c r else String a (remove_char c r)
  end.

Fixpoint repeat_char (c : ascii) (n : nat) : string :=
  match n with
  | O => ""
  | S k => String c (repeat_char c k)
  end.

(** ** Decimal digits of integers *)

Definition digit_char (d : N) : ascii := ascii_of_N (48 + d).

Definition digit_val (c : ascii) : N := (code c - 48)%N.

Fixpoint digits_acc (fuel : nat) (n : N) (acc : string) : string :=
  let acc' := String (digit_char (n mod 10)) acc in
  match fuel with
  | O => acc'
  | S k => if (n <? 10)%N then acc' else digits_acc k (n / 10) acc'
  end.

(** The decimal digits of [n], most significant first, ["0"] for zero. *)
Definition str_of_N (n : N) : string :=
  digits_acc (N.to_nat (N.log2 n)) n "".

(** [str(z)] for an int *)
Definition str_of_Z (z : Z) : string :=
  if z <? 0 then String "-" (str_of_N (Z.abs_N z)) else str_of_N (Z.abs_N z).

Fixpoint digits_value_acc (acc : N) (s : string) : N :=
  match s with
  | EmptyString => acc
  | String c r => digits_value_acc (10 * acc + digit_val c) r
  end.

(** [int(s)] for a string of digits *)
Definition int_of_digits (s : string) : N := digits_value_acc 0 s.

(** The longest prefix of digits, and what follows it. *)
Fixpoint span_digits (s : string) : string * string :=
  match s with
  | EmptyString => ("", "")
  | String c r =>
      if is_digit c then
        let (d, t) := span_digits r in (String c d, t)
      else ("", s)
  end.

(** ** [decimal.Decimal] *)

(** A decimal: a finite number [(-1)^sign * coefficient * 10^exponent], an
    infinity, or a quiet or signalling NaN with its diagnostic payload.
    Coefficient and exponent have no bound: the constructor is exact, and
    the limit an implementation puts on the exponent (18 digits in
    libmpdec) is left out. *)
Inductive Decimal : Type :=
| DFinite (sign : bool) (coefficient : N) (exponent : Z)
| DInfinity (sign : bool)
| DNaN (sign : bool) (signaling : bool) (payload : N).

Definition conversion_syntax : Exn :=
  mkExn InvalidOperation "[<class 'decimal.ConversionSyntax'>]".

Definition invalid_comparison : Exn :=
  mkExn InvalidOperation "[<class 'decimal.InvalidOperation'>]".

(** What may follow the digits of a number: nothing, or [e], an optional
    sign and at least one digit, up to the end of the string. *)
Definition parse_exponent (s : string) : option Z :=
  match s with
  | EmptyString => Some 0
  | String c r =>
      if Ascii.eqb c "e" then
        let '(neg, r') :=
          match r with
          | String "+" t => (false, t)
          | String "-" t => (true, t)
          | _ => (false, r)
          end in
        let (d, t) := span_digits r' in
        if is_empty d || negb (is_empty t) then None
        else Some (if neg then - Z.of_N (int_of_digits d) else Z.of_N (int_of_digits d))
      else None
  end.

(** A number: digits, an optional point and more digits, with at least one
    digit in all, then the optional exponent.  The value is
    [int(intpart + fracpart)] with exponent [exp - len(fracpart)]. *)
Definition parse_number (s : string) : option (N * Z) :=
  let (ip, r1) := span_digits s in
  let (fp, r2) :=
    match r1 with
    | String "." t => span_digits t
    | _ => ("", r1)
    end in
  if is_empty ip && is_empty fp then None
  else
    match parse_exponent r2 with
    | None => None
    | Some e => Some (int_of_digits (ip ++ fp), e - Z.of_nat (String.length fp))
    end.

(** A NaN: an optional [s], then [nan], then digits up to the end. *)
Definition parse_nan (s : string) : option (bool * N) :=
  let '(sig, r) :=
    match s with
    | String "s" t => (true, t)
    | _ => (false, s)
    end in
  if starts_with "nan" r then
    let (d, t) := span_digits (substring 3 (String.length r - 3) r) in
    if is_empty t then Some (sig, int_of_digits d) else None
  else None.

(** The part after the sign, letters already in lower case. *)
Definition parse_unsigned (neg : bool) (s : string) : option Decimal :=
  match parse_number s with
  | Some (c, e) => Some (DFinite neg c e)
  | None =>
      if String.eqb s "inf" || String.eqb s "infinity" then Some (DInfinity neg)
      else
        match parse_nan s with
        | Some (sig, p) => Some (DNaN neg sig p)
        | None => None
        end
  end.

(** The optional sign in front. *)
Definition split_sign (t : string) : bool * string :=
  match t with
  | String "-" r => (true, r)
  | String "+" r => (false, r)
  | _ => (false, t)
  end.

(** [Decimal(s)] for a string: white space is stripped at both ends, every
    underscore is dropped, letters match in either case. *)
Definition Decimal_of_str (s : string) : result Decimal :=
  let (neg, r) := split_sign (lower (remove_char "_" (strip s))) in
  match parse_unsigned neg r with
  | Some d => inr d
  | None => inl conversion_syntax
  end.

(** [d < 0]: an ordering comparison with a NaN signals InvalidOperation,
    which the default context traps; zero of either sign is not below 0. *)
Definition Decimal_lt_zero (d : Decimal) : result bool :=
  match d with
  | DFinite sign c _ => inr (sign && negb (c =? 0)%N)
  | DInfinity sign => inr sign
  | DNaN _ _ _ => inl invalid_comparison
  end.

(** ** [repr] of a float *)

Fixpoint take (n : nat) (s : string) : string :=
  match n, s with
  | S k, String c r => String c (take k r)
  | _, _ => ""
  end.

Fixpoint drop (n : nat) (s : string) : string :=
  match n, s with
  | S k, String _ r => drop k r
  | _, _ => s
  end.

(** The least [j >= 1], at most [fuel], with [num * 10^j >= den]. *)
Fixpoint first_scale (fuel : nat) (num den j : Z) : Z :=
  match fuel with
  | O => j
  | S k => if den <=? num * 10 ^ j then j else first_scale k num den (j + 1)
  end.

(** [floor (log10 (num / den))] for positive [num] and [den]. *)
Definition floor_log10 (num den : Z) : Z :=
  if den <=? num
  then Z.of_nat (String.length (str_of_N (Z.to_N (num / den)))) - 1
  else - first_scale 400 num den 1.

Fixpoint strip_zeros (fuel : nat) (c k : Z) : Z * Z :=
  match fuel with
  | O => (c, k)
  | S f => if (c mod 10 =? 0) && (0 <? c) then strip_zeros f (c / 10) (k + 1) else (c, k)
  end.

Section Shortest.

(** The float is [m * 2^e], a binary64 number: [m] has 53 bits, or
    [e = -1074].  Everything is counted in quarters of its last place. *)
Variables (m : positive) (e : Z).

Let X : Z := 4 * Z.pos m.
Let LO : Z := if (Z.pos m =? 2 ^ 52) && (-1074 <? e) then X - 1 else X - 2.
Let HI : Z := X + 2.
Let num (y : Z) : Z := y * 2 ^ Z.max (e - 2) 0.
Let den : Z := 2 ^ Z.max (2 - e) 0.

(** [c * 10^k] compared with [y * 2^(e-2)] *)
Definition cmp_scaled (c k y : Z) : comparison :=
  (c * 10 ^ Z.max k 0 * den ?= num y * 10 ^ Z.max (- k) 0).

(** Does [c * 10^k] read back as the float?  The ends of the interval
    count when the mantissa is even. *)
Definition reads_back (c k : Z) : bool :=
  match cmp_scaled c k LO, cmp_scaled c k HI with
  | Gt, Lt => true
  | Eq, _ | _, Eq => Z.even (Z.pos m)
  | _, _ => false
  end.

Definition floor_scaled (k : Z) : Z :=
  (num X * 10 ^ Z.max (- k) 0) / (10 ^ Z.max k 0 * den).

(** Of [c] and [c + 1], the one whose [c * 10^k] is nearer to the float;
    the even one on a tie. *)
Definition nearer (c k : Z) : Z :=
  match cmp_scaled (2 * c + 1) k (2 * X) with
  | Gt => c
  | Lt => c + 1
  | Eq => if Z.even c then c else c + 1
  end.

(** With [n] digits, [n + fuel = 17]: the candidates are the two
    [n]-digit decimals around the float. *)
Fixpoint shortest_from (fuel : nat) (p n : Z) : Z * Z :=
  let k := p - n + 1 in
  let c := floor_scaled k in
  match fuel with
  | O => (nearer c k, k)
  | S f =>
      match reads_back c k, reads_back (c + 1) k with
      | true, true => (nearer c k, k)
      | true, false => (c, k)
      | false, true => (c + 1, k)
      | false, false => shortest_from f p (n + 1)
      end
  end.

(** The shortest decimal [c * 10^k] that reads back as the float, and
    the nearest to it among those. *)
Definition shortest_digits : positive * Z :=
  let (c, k) := shortest_from 16 (floor_log10 (num X) den) 1 in
  let (c', k') := strip_zeros 17 c k in
  (Z.to_pos c', k').

End Shortest.

Definition pad2 (s : string) : string :=
  match s with
  | String c EmptyString => String "0" s
  | _ => s
  end.

(** The digits [c] with the point after [k + len] of them: exponent
    notation when the point lies more than 16 places right or more than 3
    places left of the first digit; [.0] is added to a whole number. *)
Definition format_short (c : positive) (k : Z) : string :=
  let ds := str_of_N (Npos c) in
  let nd := Z.of_nat (String.length ds) in
  let decpt := k + nd in
  if (decpt <=? -4) || (16 <? decpt) then
    let e10 := decpt - 1 in
    take 1 ds ++ (if is_empty (drop 1 ds) then "" else String "." (drop 1 ds))
      ++ "e" ++ (if e10 <? 0 then "-" else "+") ++ pad2 (str_of_N (Z.abs_N e10))
  else if decpt <=? 0 then
    "0." ++ repeat_char "0" (Z.to_nat (- decpt)) ++ ds
  else if nd <=? decpt then
    ds ++ repeat_char "0" (Z.to_nat (decpt - nd)) ++ ".0"
  else
    take (Z.to_nat decpt) ds ++ "." ++ drop (Z.to_nat decpt) ds.

(** [repr(f)], which is also [str(f)] *)
Definition float_repr (f : spec_float) : string :=
  match f with
  | S754_zero false => "0.0"
  | S754_zero true => "-0.0"
  | S754_infinity false => "inf"
  | S754_infinity true => "-inf"
  | S754_nan => "nan"
  | S754_finite s m e =>
      let (c, k) := shortest_digits m e in
      (if s then "-" else "") ++ format_short c k
  end.

(** ** [repr] and [str] *)

Definition dquote : ascii := ascii_of_N 34.
Definition squote : ascii := "'".
Definition backslash : ascii := ascii_of_N 92.

Definition hex_char (n : N) : ascii :=
  if (n <? 10)%N then ascii_of_N (48 + n) else ascii_of_N (87 + n).

(** One character inside a string literal quoted with [q]. *)
Definition escape_char (q c : ascii) : string :=
  let n := code c in
  if Ascii.eqb c q || Ascii.eqb c backslash then String backslash (String c "")
  else if (n =? 9)%N then String backslash "t"
  else if (n =? 10)%N then String backslash "n"
  else if (n =? 13)%N then String backslash "r"
  else if (n <? 32)%N || (n =? 127)%N then
    String backslash (String "x" (String (hex_char (n / 16)) (String (hex_char (n mod 16)) "")))
  else String c "".

Fixpoint escape (q : ascii) (s : string) : string :=
  match s with
  | EmptyString => ""
  | String c r => escape_char q c ++ escape q r
  end.

(** [repr(s)] for a string: single quotes, double quotes when the text
    holds a single quote and no double quote. *)
Definition str_repr (s : string) : string :=
  let q := if has_char squote s && negb (has_char dquote s) then dquote else squote in
  String q (escape q s ++ String q "").

(** [repr(v)] *)
Fixpoint py_repr (v : pyvalue) : string :=
  match v with
  | PNone => "None"
  | PBool true => "True"
  | PBool false => "False"
  | PInt z => str_of_Z z
  | PFloat f => float_repr f
  | PStr s => str_repr s
  | PList l => "[" ++ join ", " (map py_repr l) ++ "]"
  | PDict kvs =>
      "{" ++ join ", " (map (fun kv => str_repr (fst kv) ++ ": " ++ py_repr (snd kv)) kvs) ++ "}"
  end.

(** [str(v)] *)
Definition py_str (v : pyvalue) : string :=
  match v with
  | PStr s => s
  | _ => py_repr v
  end.

(** ** Operators and methods *)

Fixpoint dict_get (k : string) (kvs : list (string * pyvalue)) : option pyvalue :=
  match kvs with
  | [] => None
  | (k', v) :: r => if String.eqb k' k then Some v else dict_get k r
  end.

Definition is_str (s : string) (v : pyvalue) : bool :=
  match v with
  | PStr t => String.eqb t s
  | _ => false
  end.

(** [item in container] for a string [item]: a key of a dict, an element
    of a list, a substring of a string; other types are not containers. *)
Definition py_in (item : string) (container : pyvalue) : result bool :=
  match container with
  | PDict kvs => inr (match dict_get item kvs with Some _ => true | None => false end)
  | PList l => inr (existsb (is_str item) l)
  | PStr s => inr (contains item s)
  | _ => inl (mkExn TypeError
                ("argument of type '" ++ type_name container ++ "' is not iterable"))
  end.

(** [container[key]] for a string [key] *)
Definition py_getitem (container : pyvalue) (key : string) : result pyvalue :=
  match container with
  | PDict kvs =>
      match dict_get key kvs with
      | Some v => inr v
      | None => inl (mkExn KeyError (str_repr key))
      end
  | PList _ => inl (mkExn TypeError "list indices must be integers or slices, not str")
  | PStr _ => inl (mkExn TypeError "string indices must be integers, not 'str'")
  | _ => inl (mkExn TypeError ("'" ++ type_name container ++ "' object is not subscriptable"))
  end.

Definition no_attribute (v : pyvalue) (attr : string) : Exn :=
  mkExn AttributeError ("'" ++ type_name v ++ "' object has no attribute '" ++ attr ++ "'").

(** [v.strip()]: only a string has the method. *)
Definition py_strip (v : pyvalue) : result string :=
  match v with
  | PStr s => inr (strip s)
  | _ => inl (no_attribute v "strip")
  end.

End Py.
Import Py.

(** ** The storage layer

    The module names [Product], [Warehouse], [Inventory] and [db] without
    defining them: the models and the session come from elsewhere. *)

Module Db.

(** Modelled from the spec: the Product model, which the source file uses
    and does not define.  A persistent entity with its generated id, name,
    sku and price. *)
Record Product : Type := mkProduct {
  product_id : Z;
  product_name : string;
  product_sku : string;
  product_price : Decimal
}.

(** The arguments of [Product(name=..., sku=..., price=...)]: an instance
    that has no id yet. *)
Record NewProduct : Type := mkNewProduct {
  new_name : string;
  new_sku : string;
  new_price : Decimal
}.

(** Modelled from the spec: the Inventory model, which the source file uses
    and does not define.  It holds the product id ([None] while the product
    has none), and the warehouse id and quantity as the request gave them. *)
Record Inventory : Type := mkInventory {
  inventory_product_id : option Z;
  inventory_warehouse_id : pyvalue;
  inventory_quantity : pyvalue
}.

(** Modelled from the spec: the Warehouse model, which the source file uses
    and does not define.  A reference entity found by its integer id. *)
Record Warehouse : Type := mkWarehouse { warehouse_id : Z }.

(** The committed rows, as every request sees them. *)
Record Store : Type := mkStore {
  products : list Product;
  inventories : list Inventory;
  warehouses : list Warehouse
}.

(** The calls the handler makes on the storage layer, and the one access
    the session makes on its own: the reload of an attribute of an
    instance that a commit has expired. *)
Inductive db_call : Type :=
| Query_product_by_sku (v : pyvalue)
| Query_warehouse_get (v : pyvalue)
| Session_add_product (p : NewProduct)
| Session_flush
| Session_add_inventory (i : Inventory)
| Session_commit
| Session_rollback
| Product_id_reload.

(** Modelled from the spec: the unit of work [db.session], which the source
    file uses and does not define.  It holds the committed rows, the
    instances added and not yet inserted, the product row inserted in the
    open transaction, and the calls made so far, oldest first. *)
Record Session : Type := mkSession {
  committed : Store;
  new_product : option NewProduct;
  tx_product : option Product;
  new_inventory : option Inventory;
  calls : list db_call
}.

(** What the storage engine decides: whether a call fails, with which
    exception, and the id a new product row gets. *)
Record Engine : Type := mkEngine {
  fault : Session -> db_call -> option Exn;
  next_product_id : Store -> Z
}.

(** A session at the start of a request. *)
Definition open_session (st : Store) : Session :=
  mkSession st None None None [].

(** State and exceptions: a computation runs in a session and returns a
    value or raises. *)
Definition M (A : Type) : Type := Session -> result A * Session.

Definition ret {A} (a : A) : M A := fun s => (inr a, s).

Definition raise {A} (e : Exn) : M A := fun s => (inl e, s).

Definition bind {A B} (m : M A) (k : A -> M B) : M B :=
  fun s =>
    match m s with
    | (inl e, s') => (inl e, s')
    | (inr a, s') => k a s'
    end.

(** A computation that does not touch the session. *)
Definition lift {A} (r : result A) : M A := fun s => (r, s).

Definition log (c : db_call) (s : Session) : Session :=
  mkSession (committed s) (new_product s) (tx_product s) (new_inventory s)
            (calls s ++ [c]).

(** A call that the engine may fail. *)
Definition call {A} (E : Engine) (c : db_call) (k : Session -> A * Session) : M A :=
  fun s =>
    let s1 := log c s in
    match fault E s1 c with
    | Some e => (inl e, s1)
    | None => let (a, s2) := k s1 in (inr a, s2)
    end.

(** The product rows the open transaction sees. *)
Definition visible_products (s : Session) : list Product :=
  products (committed s) ++
  match tx_product s with Some p => [p] | None => [] end.

(** The first product row whose sku is the value given; a value that is
    not a string equals no sku. *)
Definition find_product_by_sku (v : pyvalue) (l : list Product) : option Product :=
  find (fun p => is_str (product_sku p) v) l.

(** The warehouse row whose id is the int given. *)
Definition find_warehouse (v : pyvalue) (st : Store) : option Warehouse :=
  match v with
  | PInt z => find (fun w => warehouse_id w =? z) (warehouses st)
  | _ => None
  end.

(** [Product.query.filter_by(sku=v).first()] *)
Definition Product_query_filter_by_sku_first (E : Engine) (v : pyvalue) : M (option Product) :=
  call E (Query_product_by_sku v)
    (fun s => (find_product_by_sku v (visible_products s), s)).

(** [Warehouse.query.get(v)] *)
Definition Warehouse_query_get (E : Engine) (v : pyvalue) : M (option Warehouse) :=
  call E (Query_warehouse_get v)
    (fun s => (find_warehouse v (committed s), s)).

(** [db.session.add(product)] *)
Definition session_add_product (E : Engine) (p : NewProduct) : M unit :=
  call E (Session_add_product p)
    (fun s => (tt, mkSession (committed s) (Some p) (tx_product s) (new_inventory s) (calls s))).

(** The INSERT of the product added, if one is waiting: the row gets the
    next id and stays inside the open transaction. *)
Definition insert_pending (E : Engine) (s : Session) : Session :=
  match new_product s with
  | Some p =>
      let row := mkProduct (next_product_id E (committed s))
                           (new_name p) (new_sku p) (new_price p) in
      mkSession (committed s) None (Some row) (new_inventory s) (calls s)
  | None => s
  end.

(** [db.session.flush()] *)
Definition session_flush (E : Engine) : M unit :=
  call E Session_flush (fun s => (tt, insert_pending E s)).

(** [product.id]: [None] until the row is inserted. *)
Definition product_id_attr : M (option Z) :=
  fun s => (inr (option_map product_id (tx_product s)), s).

(** [product.id] after the commit: the commit has expired the instance, the
    attribute is loaded again from the row, and the storage engine may
    fail that.  The id is the one the flush gave.  The handler makes no
    call here, so the log does not grow. *)
Definition product_id_reload (E : Engine) (pid : option Z) : M (option Z) :=
  fun s =>
    match fault E s Product_id_reload with
    | Some e => (inl e, s)
    | None => (inr pid, s)
    end.

(** [db.session.add(inventory)] *)
Definition session_add_inventory (E : Engine) (i : Inventory) : M unit :=
  call E (Session_add_inventory i)
    (fun s => (tt, mkSession (committed s) (new_product s) (tx_product s) (Some i) (calls s))).

Definition opt_list {A} (o : option A) : list A :=
  match o with Some a => [a] | None => [] end.

(** The rows of the open transaction become committed rows. *)
Definition persist (s : Session) : Session :=
  mkSession
    (mkStore (products (committed s) ++ opt_list (tx_product s))
             (inventories (committed s) ++ opt_list (new_inventory s))
             (warehouses (committed s)))
    None None None (calls s).

(** [db.session.commit()]: the waiting INSERTs, then the COMMIT. *)
Definition session_commit (E : Engine) : M unit :=
  call E Session_commit (fun s => (tt, persist (insert_pending E s))).

(** [db.session.rollback()]: the open transaction and the instances added
    in it are dropped. *)
Definition session_rollback (s : Session) : Session :=
  mkSession (committed s) None None None (calls s ++ [Session_rollback]).

(** No row is written and not committed, no instance waits for its INSERT. *)
Definition clean (s : Session) : Prop :=
  new_product s = None /\ tx_product s = None /\ new_inventory s = None.

End Db.

Import Db.

Declare Scope py_scope.
Notation "x <- a ;; b" := (bind a (fun x => b))
  (at level 61, a at next level, right associativity) : py_scope.
Local Open Scope py_scope.

(** ** The handler *)

(** [jsonify(body), status] *)
Definition Response : Type := (list (string * pyvalue) * Z)%type.

Definition error_response (msg : string) (status : Z) : Response :=
  ([("error", PStr msg)], status).

Definition created_response (pid : option Z) : Response :=
  ([("message", PStr "Product created successfully");
    ("product_id", match pid with Some z => PInt z | None => PNone end)], 201).

Definition status_of (r : Response) : Z := snd r.

Definition required_fields : list string :=
  ["name"; "sku"; "price"; "warehouse_id"; "initial_quantity"].

(** [[f for f in fields if f not in data]]: the first test that raises
    ends the comprehension. *)
Fixpoint missing_fields (fields : list string) (data : pyvalue) : result (list string) :=
  match fields with
  | [] => inr []
  | f :: r =>
      match py_in f data with
      | inl e => inl e
      | inr present =>
          match missing_fields r data with
          | inl e => inl e
          | inr l => inr (if present then l else f :: l)
          end
      end
  end.

Definition is_nil {A} (l : list A) : bool :=
  match l with [] => true | _ => false end.

(** [try: body / except classes: handler] *)
Definition try_except {A} (body : M A) (classes : list exn_class) (handler : M A) : M A :=
  fun s =>
    match body s with
    | (inl e, s') =>
        if existsb (exn_class_eqb (exn_class_of e)) classes then handler s' else (inl e, s')
    | r => r
    end.

(** Step 2, the inner [try]: the price, or the response of a [return]
    inside the block. *)
Definition price_block (data : pyvalue) : M (Response + Decimal) :=
  try_except
    (v <- lift (py_getitem data "price") ;;
     price <- lift (Decimal_of_str (py_str v)) ;;
     negative <- lift (Decimal_lt_zero price) ;;
     if negative : bool
     then ret (inl (error_response "Price cannot be negative" 400))
     else ret (inr price))
    [InvalidOperation; TypeError]
    (ret (inl (error_response "Invalid price format" 400))).

(** The body of the outer [try], steps 1 to 7. *)
Definition create_product_body (E : Engine) (data : pyvalue) : M Response :=
  missing <- lift (missing_fields required_fields data) ;;
  if negb (is_nil missing) then
    ret (error_response ("Missing fields: " ++ join ", " missing) 400)
  else
    r <- price_block data ;;
    match r with
    | inl response => ret response
    | inr price =>
        sku <- lift (py_getitem data "sku") ;;
        existing <- Product_query_filter_by_sku_first E sku ;;
        match existing with
        | Some _ => ret (error_response "SKU already exists" 409)
        | None =>
            wid <- lift (py_getitem data "warehouse_id") ;;
            warehouse <- Warehouse_query_get E wid ;;
            match warehouse with
            | None => ret (error_response "Warehouse not found" 404)
            | Some _ =>
                name <- lift (py_getitem data "name") ;;
                name' <- lift (py_strip name) ;;
                sku1 <- lift (py_getitem data "sku") ;;
                sku' <- lift (py_strip sku1) ;;
                _ <- session_add_product E (mkNewProduct name' (upper sku') price) ;;
                _ <- session_flush E ;;
                pid <- product_id_attr ;;
                wid' <- lift (py_getitem data "warehouse_id") ;;
                quantity <- lift (py_getitem data "initial_quantity") ;;
                _ <- session_add_inventory E (mkInventory pid wid' quantity) ;;
                _ <- session_commit E ;;
                pid' <- product_id_reload E pid ;;
                ret (created_response pid')
            end
        end
    end.

(** [create_product]: the body, [except IntegrityError], [except Exception]. *)
Definition create_product (E : Engine) (data : pyvalue) (s : Session) : Response * Session :=
  match create_product_body E data s with
  | (inr response, s') => (response, s')
  | (inl e, s') =>
      if exn_class_eqb (exn_class_of e) IntegrityError then
        (error_response "Database integrity error" 400, session_rollback s')
      else
        (error_response ("Internal error: " ++ exn_str e) 500, session_rollback s')
  end.

(** One request against the committed rows [st]. *)
Definition handle (E : Engine) (st : Store) (data : pyvalue) : Response * Session :=
  create_product E data (open_session st).

(** ** Two storage engines *)

Definition integrity_error : Exn :=
  mkExn IntegrityError "constraint failed".

Definition sku_taken (sku : string) (l : list Product) : bool :=
  existsb (fun p => String.eqb (product_sku p) sku) l.

Definition warehouse_known (v : pyvalue) (st : Store) : bool :=
  match find_warehouse v st with Some _ => true | None => false end.

(** An engine with a unique constraint on the sku and foreign keys on the
    inventory row; ids count up from the largest one in use. *)
Definition constraint_engine : Engine :=
  mkEngine
    (fun s c =>
       match c with
       | Session_flush =>
           match new_product s with
           | Some p => if sku_taken (new_sku p) (products (committed s))
                       then Some integrity_error else None
           | None => None
           end
       | Session_commit =>
           match new_inventory s with
           | Some i =>
               match inventory_product_id i with
               | Some _ => if warehouse_known (inventory_warehouse_id i) (committed s)
                           then None else Some integrity_error
               | None => Some integrity_error
               end
           | None => None
           end
       | _ => None
       end)
    (fun st => 1 + fold_right Z.max 0 (map product_id (products st))).

(** An engine without constraints. *)
Definition lenient_engine : Engine :=
  mkEngine (fun _ _ => None)
           (fun st => 1 + fold_right Z.max 0 (map product_id (products st))).

(** The storage engine raises on none of the six calls of a request that
    passes every check: sku query, warehouse query, add, flush, add,
    commit; nor on the reload of [product.id] after the commit. *)
Definition accepts (E : Engine) (st : Store) (sku wid quantity : pyvalue)
    (p : NewProduct) : Prop :=
  let s1 := log (Query_product_by_sku sku) (open_session st) in
  let s2 := log (Query_warehouse_get wid) s1 in
  let s3 := log (Session_add_product p) s2 in
  let s4 := log Session_flush
              (mkSession (committed s3) (Some p) (tx_product s3) (new_inventory s3) (calls s3)) in
  let s5 := insert_pending E s4 in
  let i := mkInventory (option_map product_id (tx_product s5)) wid quantity in
  let s6 := log (Session_add_inventory i) s5 in
  let s7 := log Session_commit
              (mkSession (committed s6) (new_product s6) (tx_product s6) (Some i) (calls s6)) in
  fault E s1 (Query_product_by_sku sku) = None /\
  fault E s2 (Query_warehouse_get wid) = None /\
  fault E s3 (Session_add_product p) = None /\
  fault E s4 Session_flush = None /\
  fault E s6 (Session_add_inventory i) = None /\
  fault E s7 Session_commit = None /\
  fault E (persist (insert_pending E s7)) Product_id_reload = None.

(** A call that writes. *)
Definition is_write (c : db_call) : bool :=
  match c with
  | Session_add_product _ | Session_flush | Session_add_inventory _ | Session_commit => true
  | _ => false
  end.

(** Presence of a key in a dict. *)
Definition has_key (k : string) (kvs : list (string * pyvalue)) : bool :=
  match dict_get k kvs with Some _ => true | None => false end.

(** The latest call of a log. *)
Definition last_call (l : list db_call) : option db_call :=
  match rev l with
  | c :: _ => Some c
  | [] => None
  end.

(** The keys as the specification spells them. *)
Definition spec_required_keys : list string :=
  ["name"; "sku"; "price"; "warehouseId"; "initialQuantity"].

(** ** Sample data *)

Definition one_warehouse : Store := mkStore [] [] [mkWarehouse 1].

Definition request (name sku price wid quantity : pyvalue) : list (string * pyvalue) :=
  [("name", name); ("sku", sku); ("price", price);
   ("warehouse_id", wid); ("initial_quantity", quantity)].

Definition widget (sku : string) : list (string * pyvalue) :=
  request (PStr "Widget") (PStr sku) (PStr "19.99") (PInt 1) (PInt 50).

Definition priced (price : pyvalue) : list (string * pyvalue) :=
  request (PStr "Widget") (PStr "W-100") price (PInt 1) (PInt 50).

Definition widget_row : Product :=
  mkProduct 1 "Widget" "WIDGET-1" (DFinite false 1999 (-2)).

Definition widget_store : Store :=
  mkStore [widget_row] [mkInventory (Some 1) (PInt 1) (PInt 50)] [mkWarehouse 1].

(** ** Readings of a price input *)

Fixpoint string_forall (p : ascii -> bool) (s : string) : bool :=
  match s with
  | EmptyString => true
  | String c r => p c && string_forall p r
  end.

(** Empty, or white space only. *)
Definition blank (s : string) : bool := string_forall is_space s.

(** A decimal below zero as a number: a negative sign on a coefficient
    that is not zero, or minus infinity. *)
Definition Decimal_negative (d : Decimal) : Prop :=
  match d with
  | DFinite true c _ => c <> 0%N
  | DInfinity true => True
  | _ => False
  end.

Definition Decimal_zero (d : Decimal) : Prop :=
  match d with
  | DFinite _ c _ => c = 0%N
  | _ => False
  end.

(** The number a price input denotes, if it denotes one: what [Decimal]
    reads from its [str], a NaN apart. *)
Definition price_value (v : pyvalue) : option Decimal :=
  match Decimal_of_str (py_str v) with
  | inr (DNaN _ _ _) => None
  | inr d => Some d
  | inl _ => None
  end.

(** Not a number and not text: [None], a bool, a list or a dict. *)
Definition wrong_typed (v : pyvalue) : Prop :=
  match v with
  | PNone | PBool _ | PList _ | PDict _ => True
  | _ => False
  end.

(** A string that is not a number, or a value of a wrong type. *)
Definition not_a_number (v : pyvalue) : Prop :=
  match v with
  | PStr _ => price_value v = None
  | _ => wrong_typed v
  end.

(** A number below zero: an int, a float, or a numeric string. *)
Definition negative_number (v : pyvalue) : Prop :=
  match v with
  | PInt z => z < 0
  | PFloat (S754_finite true _ _) | PFloat (S754_infinity true) => True
  | PStr _ => exists d, price_value v = Some d /\ Decimal_negative d
  | _ => False
  end.

(** Zero: the int, a float zero of either sign, or a numeric string. *)
Definition zero_number (v : pyvalue) : Prop :=
  match v with
  | PInt z => z = 0
  | PFloat (S754_zero _) => True
  | PStr _ => exists d, price_value v = Some d /\ Decimal_zero d
  | _ => False
  end.

(** The characters of a printed number: digits, sign, point, [e]. *)
Definition plain_char (c : ascii) : bool :=
  is_digit c || Ascii.eqb c "+" || Ascii.eqb c "-" || Ascii.eqb c "." || Ascii.eqb c "e".

(** An engine that fails the calls [p] picks, with the exception [e]. *)
Definition failing_engine (p : db_call -> bool) (e : Exn) : Engine :=
  mkEngine (fun _ c => if p c then Some e else None)
           (next_product_id constraint_engine).

Definition is_commit (c : db_call) : bool :=
  match c with Session_commit => true | _ => false end.

Definition is_reload (c : db_call) : bool :=
  match c with Product_id_reload => true | _ => false end.

(** A storage engine that loads an expired attribute without fail. *)
Definition reloads (E : Engine) : Prop :=
  forall s, fault E s Product_id_reload = None.

Definition connection_lost : Exn := mkExn OtherException "connection lost".

(** No digit at the head. *)
Definition digit_free_head (t : string) : Prop :=
  match t with
  | EmptyString => True
  | String c _ => is_digit c = false
  end.

(** What follows the digits of a printed number: nothing, or an exponent. *)
Definition exponent_part (ex : string) (ev : Z) : Prop :=
  parse_exponent ex = Some ev /\ digit_free_head ex /\
  match ex with String c _ => Ascii.eqb c "." = false | EmptyString => True end.

(** A printed number without its sign: plain characters, a digit first,
    read by [Decimal] as [co * 10^ex] with [co] not zero. *)
Definition printed_number (body : string) (co : N) (ex : Z) : Prop :=
  string_forall plain_char body = true /\
  (exists d r, body = String d r /\ is_digit d = true) /\
  parse_number body = Some (co, ex) /\ co <> 0%N.

Ltac run_step :=
  match goal with
  | |- context [match ?x with _ => _ end] =>
      match x with
      | context [match _ with _ => _ end] => fail 1
      | _ => destruct x eqn:?
      end
  end.

Ltac use_eqs :=
  repeat (simpl in *; match goal with H : ?x = _ |- context [?x] => rewrite H end).

Ltac unfold_handler :=
  unfold handle, create_product, create_product_body, price_block, try_except,
    Product_query_filter_by_sku_first, Warehouse_query_get, session_add_product,
    session_flush, session_add_inventory, session_commit, product_id_attr, product_id_reload,
    call, bind, lift, ret.

Ltac ascii_cases c :=
  destruct c as [[] [] [] [] [] [] [] []]; try reflexivity; try discriminate.

(** ** The log of calls *)

(** The place of a call in a request: the two queries, the four writes,
    the rollback. *)
Definition call_rank (c : db_call) : nat :=
  match c with
  | Query_product_by_sku _ => 0
  | Query_warehouse_get _ => 1
  | Session_add_product _ => 2
  | Session_flush => 3
  | Session_add_inventory _ => 4
  | Session_commit => 5
  | Session_rollback => 6
  | Product_id_reload => 7
  end.

Definition is_rollback (c : db_call) : bool :=
  match c with Session_rollback => true | _ => false end.

(** A sku as the handler writes it: stripping it and putting it in upper
    case again changes nothing. *)
Definition normal_sku (s : string) : Prop := upper (strip s) = s.

(** A body that is no container: [None], a bool, an int, a float. *)
Definition scalar (v : pyvalue) : Prop :=
  match v with
  | PNone | PBool _ | PInt _ | PFloat _ => True
  | _ => False
  end.

(** A body that is a container and no dict: a list or a string. *)
Definition sequence (v : pyvalue) : Prop :=
  match v with
  | PList _ | PStr _ => True
  | _ => False
  end.

(** A JSON number that is a number: an int, or a float other than NaN. *)
Definition json_number (v : pyvalue) : Prop :=
  match v with
  | PInt _ => True
  | PFloat S754_nan => False
  | PFloat _ => True
  | _ => False
  end.

(** An inventory row that refers to a stored product and to a stored
    warehouse. *)
Definition inventory_linked (st : Store) (i : Inventory) : Prop :=
  (exists p, In p (products st) /\ inventory_product_id i = Some (product_id p)) /\
  (exists w, find_warehouse (inventory_warehouse_id i) st = Some w).

(** Past the price check: the sku query, the warehouse query. *)
Ltac run_past_price Hm Hp :=
  unfold handle, create_product, create_product_body, bind, lift;
  rewrite Hm; simpl; rewrite Hp;
  unfold Product_query_filter_by_sku_first, Warehouse_query_get, session_add_product,
    session_flush, session_add_inventory, session_commit, product_id_attr, product_id_reload,
    call, bind, lift, ret;
  unfold visible_products, find_product_by_sku in *;
  use_eqs; try rewrite app_nil_r; use_eqs.

(** * Properties *)

(** ** The embedding at work *)

Example strip_upper_sku : upper (strip "  abc-1 ") = "ABC-1".
Proof. reflexivity. Qed.

Example strip_separators :
  strip (String (ascii_of_N 28) (String (ascii_of_N 9) "a b" ++ String (ascii_of_N 13) ""))
  = "a b".
Proof. reflexivity. Qed.

Example decimal_of_money : Decimal_of_str "19.99" = inr (DFinite false 1999 (-2)).
Proof. reflexivity. Qed.

Example decimal_of_padded : Decimal_of_str " -1_0.50E+3 " = inr (DFinite true 1050 1).
Proof. reflexivity. Qed.

Example decimal_of_point : Decimal_of_str "." = inl conversion_syntax.
Proof. reflexivity. Qed.

Example decimal_of_snan : Decimal_of_str "-sNaN12" = inr (DNaN true true 12).
Proof. reflexivity. Qed.

Example repr_of_tenth : float_repr (S754_finite false 7205759403792794 (-56)) = "0.1".
Proof. vm_compute. reflexivity. Qed.

Example repr_of_large : float_repr (S754_finite true 5000000000000000 1) = "-1e+16".
Proof. vm_compute. reflexivity. Qed.

Example repr_of_small : float_repr (S754_finite false 5902958103587057 (-69)) = "1e-05".
Proof. vm_compute. reflexivity. Qed.

Example repr_of_whole : float_repr (S754_finite false 7036874417766400 (-46)) = "100.0".
Proof. vm_compute. reflexivity. Qed.

Example str_of_nested :
  py_str (PList [PStr "a'b"; PInt (-3); PNone; PDict [("k", PBool true)]])
  = String "[" (String dquote ("a'b" ++ String dquote ", -3, None, {'k': True}]")).
Proof. reflexivity. Qed.

(** The scenario of a first and a second request for the same product. *)
Example widget_created :
  handle constraint_engine one_warehouse (PDict (widget "W-100"))
  = (created_response (Some 1),
     mkSession
       (mkStore [mkProduct 1 "Widget" "W-100" (DFinite false 1999 (-2))]
                [mkInventory (Some 1) (PInt 1) (PInt 50)]
                [mkWarehouse 1])
       None None None
       [Query_product_by_sku (PStr "W-100"); Query_warehouse_get (PInt 1);
        Session_add_product (mkNewProduct "Widget" "W-100" (DFinite false 1999 (-2)));
        Session_flush;
        Session_add_inventory (mkInventory (Some 1) (PInt 1) (PInt 50));
        Session_commit]).
Proof. reflexivity. Qed.

Example widget_repeated :
  let st := committed (snd (handle constraint_engine one_warehouse (PDict (widget "W-100")))) in
  fst (handle constraint_engine st (PDict (widget "W-100")))
  = error_response "SKU already exists" 409 /\
  committed (snd (handle constraint_engine st (PDict (widget "W-100")))) = st.
Proof. split; reflexivity. Qed.

(** A body that is a string or a list passes the field check when it
    holds the five names, and fails on the subscript inside the guarded
    block. *)
Example text_body_is_a_price_error :
  fst (handle constraint_engine one_warehouse
         (PStr "name sku price warehouse_id initial_quantity"))
  = error_response "Invalid price format" 400.
Proof. reflexivity. Qed.

(** ** The field-presence check *)

Lemma missing_fields_dict (fields : list string) (kvs : list (string * pyvalue)) :
  missing_fields fields (PDict kvs)
  = inr (filter (fun f => negb (has_key f kvs)) fields).
Proof.
  induction fields as [|f r IH]; simpl; [reflexivity|].
  rewrite IH. unfold has_key. destruct (dict_get f kvs); reflexivity.
Qed.

Lemma status_error_response (msg : string) (status : Z) :
  status_of (error_response msg status) = status.
Proof. reflexivity. Qed.

(** When the comprehension finds a field missing, the handler answers at
    once and the session is as the request found it. *)
Lemma create_product_missing (E : Engine) (data : pyvalue) (s : Session)
    (f : string) (l : list string) :
  missing_fields required_fields data = inr (f :: l) ->
  create_product E data s
  = (error_response ("Missing fields: " ++ join ", " (f :: l)) 400, s).
Proof.
  intros H. unfold create_product, create_product_body, bind, lift.
  rewrite H. reflexivity.
Qed.

Lemma create_product_missing_dict (E : Engine) (kvs : list (string * pyvalue)) (s : Session) :
  let missing := filter (fun f => negb (has_key f kvs)) required_fields in
  missing <> [] ->
  create_product E (PDict kvs) s
  = (error_response ("Missing fields: " ++ join ", " missing) 400, s).
Proof.
  intros missing H.
  destruct missing as [|f l] eqn:Hm; [congruence|].
  apply create_product_missing. rewrite missing_fields_dict. fold missing. now rewrite Hm.
Qed.

(** C5, as amended.  The required keys are [name], [sku], [price],
    [warehouse_id] and [initial_quantity].  For every dict that lacks one
    or more of them, the response is 400 with the error
    ["Missing fields: "] followed by all the missing keys, in the order of
    the list and joined by [", "]; the session is the one the request
    started with, so no query and no write has been made. *)
Theorem C5_missing_fields_reported (E : Engine) (st : Store) (kvs : list (string * pyvalue)) :
  let missing := filter (fun f => negb (has_key f kvs)) required_fields in
  missing <> [] ->
  required_fields = ["name"; "sku"; "price"; "warehouse_id"; "initial_quantity"] /\
  (forall f, In f missing <-> In f required_fields /\ dict_get f kvs = None) /\
  handle E st (PDict kvs)
  = (error_response ("Missing fields: " ++ join ", " missing) 400, open_session st).
Proof.
  intros missing H. split; [reflexivity|]. split.
  - intros f. unfold missing. rewrite filter_In. unfold has_key.
    destruct (dict_get f kvs); simpl; intuition congruence.
  - apply create_product_missing_dict, H.
Qed.

Lemma C5_missing_fields_reported_witness :
  handle constraint_engine one_warehouse (PDict [("name", PStr "Widget"); ("price", PStr "x")])
  = (error_response "Missing fields: sku, warehouse_id, initial_quantity" 400,
     open_session one_warehouse).
Proof.
  apply (C5_missing_fields_reported constraint_engine one_warehouse
           [("name", PStr "Widget"); ("price", PStr "x")]).
  simpl. discriminate.
Defined.

(** C5 as the specification words it fails: a request that holds every key
    the specification names, [warehouseId] and [initialQuantity] among
    them, is answered with two missing fields. *)
Lemma C5_spec_keys_rejected :
  let kvs := [("name", PStr "Widget"); ("sku", PStr "W-100"); ("price", PStr "19.99");
              ("warehouseId", PInt 1); ("initialQuantity", PInt 50)] in
  filter (fun f => negb (has_key f kvs)) spec_required_keys = [] /\
  fst (handle constraint_engine one_warehouse (PDict kvs))
  = error_response "Missing fields: warehouse_id, initial_quantity" 400.
Proof. split; reflexivity. Qed.

(** ** Nothing persists on a failure *)


(** ** The path of a request that passes every check *)

Lemma missing_none (kvs : list (string * pyvalue)) (vn vs vp vw vq : pyvalue) :
  dict_get "name" kvs = Some vn ->
  dict_get "sku" kvs = Some vs ->
  dict_get "price" kvs = Some vp ->
  dict_get "warehouse_id" kvs = Some vw ->
  dict_get "initial_quantity" kvs = Some vq ->
  missing_fields required_fields (PDict kvs) = inr [].
Proof.
  intros Hn Hs Hp Hw Hq. rewrite missing_fields_dict.
  unfold required_fields, has_key. simpl.
  now rewrite Hn, Hs, Hp, Hw, Hq.
Qed.

Lemma create_product_success (E : Engine) (st : Store) (kvs : list (string * pyvalue))
    (n k : string) (vp vw vq : pyvalue) (d : Decimal) (w : Warehouse) :
  dict_get "name" kvs = Some (PStr n) ->
  dict_get "sku" kvs = Some (PStr k) ->
  dict_get "price" kvs = Some vp ->
  dict_get "warehouse_id" kvs = Some vw ->
  dict_get "initial_quantity" kvs = Some vq ->
  Decimal_of_str (py_str vp) = inr d ->
  Decimal_lt_zero d = inr false ->
  find_product_by_sku (PStr k) (products st) = None ->
  find_warehouse vw st = Some w ->
  accepts E st (PStr k) vw vq (mkNewProduct (strip n) (upper (strip k)) d) ->
  let pid := next_product_id E st in
  let p := mkNewProduct (strip n) (upper (strip k)) d in
  let i := mkInventory (Some pid) vw vq in
  handle E st (PDict kvs)
  = (created_response (Some pid),
     mkSession
       (mkStore (products st ++ [mkProduct pid (strip n) (upper (strip k)) d])
                (inventories st ++ [i])
                (warehouses st))
       None None None
       [Query_product_by_sku (PStr k); Query_warehouse_get vw; Session_add_product p;
        Session_flush; Session_add_inventory i; Session_commit]).
Proof.
  intros Hn Hs Hp Hw Hq Hd Hlt Hfree Hwh Hacc pid p i.
  destruct Hacc as (F1 & F2 & F3 & F4 & F5 & F6 & F7).
  unfold find_product_by_sku in Hfree.
  unfold_handler. unfold visible_products, find_product_by_sku.
  use_eqs. rewrite app_nil_r. use_eqs. reflexivity.
Qed.

(** ** Printed numbers and what [Decimal] reads from them *)

Lemma append_assoc (a b c : string) : (a ++ b) ++ c = a ++ (b ++ c).
Proof. induction a as [|x a IH]; simpl; [reflexivity|]. now rewrite IH. Qed.

Lemma append_nil_r (a : string) : a ++ "" = a.
Proof. induction a as [|x a IH]; simpl; [reflexivity|]. now rewrite IH. Qed.

Lemma length_append (a b : string) :
  String.length (a ++ b) = (String.length a + String.length b)%nat.
Proof. induction a as [|x a IH]; simpl; [reflexivity|]. now rewrite IH. Qed.

Lemma code_digit_char (d : N) : (d < 10)%N -> code (digit_char d) = (48 + d)%N.
Proof.
  intros H. unfold code, digit_char. apply N_ascii_embedding. lia.
Qed.

Lemma digit_val_char (d : N) : (d < 10)%N -> digit_val (digit_char d) = d.
Proof.
  intros H. unfold digit_val. rewrite code_digit_char by exact H. lia.
Qed.

Lemma is_digit_char (d : N) : (d < 10)%N -> is_digit (digit_char d) = true.
Proof.
  intros H. unfold is_digit. rewrite code_digit_char by exact H.
  apply andb_true_iff. split; apply N.leb_le; lia.
Qed.

Lemma digits_value_acc_app (a b : string) (acc : N) :
  digits_value_acc acc (a ++ b) = digits_value_acc (digits_value_acc acc a) b.
Proof.
  revert acc. induction a as [|c a IH]; intros acc; simpl; [reflexivity|]. apply IH.
Qed.

Lemma digits_value_acc_ge (s : string) (acc : N) :
  (acc <= digits_value_acc acc s)%N.
Proof.
  revert acc. induction s as [|c s IH]; intros acc; cbn [digits_value_acc]; [lia|].
  specialize (IH (10 * acc + digit_val c)%N). lia.
Qed.

Lemma digits_value_acc_mono (s : string) (a b : N) :
  (a <= b)%N -> (digits_value_acc a s <= digits_value_acc b s)%N.
Proof.
  revert a b. induction s as [|c s IH]; intros a b H; cbn [digits_value_acc]; [exact H|].
  apply IH. lia.
Qed.

Lemma digits_acc_app (fuel : nat) (n : N) (acc : string) :
  digits_acc fuel n acc = digits_acc fuel n "" ++ acc.
Proof.
  revert n acc. induction fuel as [|k IH]; intros n acc; simpl; [reflexivity|].
  destruct (n <? 10)%N; [reflexivity|].
  rewrite IH. rewrite (IH _ (String _ "")).
  rewrite append_assoc. reflexivity.
Qed.

Lemma string_forall_app (p : ascii -> bool) (a b : string) :
  string_forall p (a ++ b) = string_forall p a && string_forall p b.
Proof.
  induction a as [|c a IH]; simpl; [reflexivity|]. rewrite IH. apply andb_assoc.
Qed.

Lemma digits_acc_digits (fuel : nat) (n : N) :
  string_forall is_digit (digits_acc fuel n "") = true.
Proof.
  revert n. induction fuel as [|k IH]; intros n; simpl.
  - rewrite is_digit_char; [reflexivity|]. apply N.mod_lt. lia.
  - destruct (n <? 10)%N; simpl.
    + rewrite is_digit_char; [reflexivity|]. apply N.mod_lt. lia.
    + rewrite digits_acc_app, string_forall_app, IH. simpl.
      rewrite is_digit_char; [reflexivity|]. apply N.mod_lt. lia.
Qed.

Lemma digits_acc_value (fuel : nat) (n : N) :
  (n < 10 ^ N.of_nat (S fuel))%N ->
  int_of_digits (digits_acc fuel n "") = n.
Proof.
  unfold int_of_digits.
  revert n. induction fuel as [|k IH]; intros n H.
  - cbn [digits_acc digits_value_acc]. rewrite digit_val_char by (apply N.mod_lt; lia).
    change (10 ^ N.of_nat 1)%N with 10%N in H. rewrite N.mod_small; lia.
  - simpl digits_acc. destruct (n <? 10)%N eqn:E.
    + apply N.ltb_lt in E. cbn [digits_value_acc].
      rewrite digit_val_char by (apply N.mod_lt; lia).
      rewrite N.mod_small; lia.
    + rewrite digits_acc_app, digits_value_acc_app, IH.
      * cbn [digits_value_acc]. rewrite digit_val_char by (apply N.mod_lt; lia).
        pose proof (N.div_mod n 10). lia.
      * rewrite Nat2N.inj_succ, N.pow_succ_r' in H.
        apply N.Div0.div_lt_upper_bound. exact H.
Qed.

Lemma str_of_N_value (n : N) : int_of_digits (str_of_N n) = n.
Proof.
  apply digits_acc_value. rewrite Nat2N.inj_succ, N2Nat.id.
  destruct n as [|p]; [reflexivity|].
  apply N.lt_le_trans with (2 ^ N.succ (N.log2 (N.pos p)))%N.
  - apply N.log2_spec. reflexivity.
  - apply N.pow_le_mono_l. lia.
Qed.

Lemma str_of_N_digits (n : N) : string_forall is_digit (str_of_N n) = true.
Proof. apply digits_acc_digits. Qed.

Lemma is_empty_app_cons (a : string) (c : ascii) (r : string) :
  is_empty (a ++ String c r) = false.
Proof. destruct a; reflexivity. Qed.

Lemma str_of_N_nonempty (n : N) : is_empty (str_of_N n) = false.
Proof.
  unfold str_of_N.
  destruct (N.to_nat (N.log2 n)); cbn [digits_acc]; [reflexivity|].
  destruct (n <? 10)%N; [reflexivity|].
  rewrite digits_acc_app. apply is_empty_app_cons.
Qed.

Lemma plain_not_space (c : ascii) : plain_char c = true -> is_space c = false.
Proof. ascii_cases c. Qed.

Lemma plain_not_underscore (c : ascii) : plain_char c = true -> Ascii.eqb c "_" = false.
Proof. ascii_cases c. Qed.

Lemma plain_lower (c : ascii) : plain_char c = true -> lower_char c = c.
Proof. ascii_cases c. Qed.

Lemma digit_plain (c : ascii) : is_digit c = true -> plain_char c = true.
Proof. unfold plain_char. now intros ->. Qed.

Lemma digit_not_sign (c : ascii) :
  is_digit c = true ->
  Ascii.eqb c "-" = false /\ Ascii.eqb c "+" = false /\ Ascii.eqb c "." = false.
Proof. ascii_cases c; repeat split. Qed.

Lemma string_forall_impl (p q : ascii -> bool) (s : string) :
  (forall c, p c = true -> q c = true) ->
  string_forall p s = true -> string_forall q s = true.
Proof.
  intros H. induction s as [|c s IH]; simpl; [reflexivity|].
  intros Hs. apply andb_true_iff in Hs. destruct Hs as [Hc Hs].
  now rewrite (H _ Hc), IH.
Qed.

Lemma digits_plain (s : string) :
  string_forall is_digit s = true -> string_forall plain_char s = true.
Proof. apply string_forall_impl, digit_plain. Qed.

Lemma rstrip_plain (s : string) : string_forall plain_char s = true -> rstrip s = s.
Proof.
  induction s as [|c s IH]; simpl; [reflexivity|].
  intros H. apply andb_true_iff in H. destruct H as [Hc Hs].
  now rewrite (plain_not_space _ Hc), IH.
Qed.

Lemma strip_plain (s : string) : string_forall plain_char s = true -> strip s = s.
Proof.
  intros H. unfold strip.
  assert (lstrip s = s) as ->.
  { destruct s as [|c s]; [reflexivity|]. simpl in *.
    apply andb_true_iff in H. destruct H as [Hc _]. now rewrite (plain_not_space _ Hc). }
  now apply rstrip_plain.
Qed.

Lemma remove_underscore_plain (s : string) :
  string_forall plain_char s = true -> remove_char "_" s = s.
Proof.
  induction s as [|c s IH]; simpl; [reflexivity|].
  intros H. apply andb_true_iff in H. destruct H as [Hc Hs].
  now rewrite (plain_not_underscore _ Hc), IH.
Qed.

Lemma lower_plain (s : string) : string_forall plain_char s = true -> lower s = s.
Proof.
  unfold lower. induction s as [|c s IH]; simpl; [reflexivity|].
  intros H. apply andb_true_iff in H. destruct H as [Hc Hs].
  now rewrite (plain_lower _ Hc), IH.
Qed.

(** A printed number goes through the clean-up of [Decimal] unchanged. *)
Lemma normalise_plain (s : string) :
  string_forall plain_char s = true ->
  lower (remove_char "_" (strip s)) = s.
Proof.
  intros H. now rewrite strip_plain, remove_underscore_plain, lower_plain.
Qed.

Lemma span_digits_app (d t : string) :
  string_forall is_digit d = true -> digit_free_head t ->
  span_digits (d ++ t) = (d, t).
Proof.
  intros Hd Ht. induction d as [|c d IH]; simpl in *.
  - destruct t as [|c t]; [reflexivity|]. simpl in *. now rewrite Ht.
  - apply andb_true_iff in Hd. destruct Hd as [Hc Hd].
    now rewrite Hc, (IH Hd).
Qed.

Lemma span_digits_all (d : string) :
  string_forall is_digit d = true -> span_digits d = (d, "").
Proof.
  intros H. rewrite <- (append_nil_r d) at 1. now apply span_digits_app.
Qed.

(** The exponent as [repr] prints it. *)
Lemma parse_exponent_printed (neg : bool) (ds : string) :
  string_forall is_digit ds = true -> is_empty ds = false ->
  parse_exponent (String "e" (String (if neg then "-" else "+") ds))
  = Some (if neg then - Z.of_N (int_of_digits ds) else Z.of_N (int_of_digits ds)).
Proof.
  intros Hd Hn. unfold parse_exponent.
  destruct neg; simpl; rewrite (span_digits_all _ Hd), Hn; reflexivity.
Qed.

Lemma parse_number_point (ip fp ex : string) (ev : Z) :
  string_forall is_digit ip = true ->
  string_forall is_digit fp = true ->
  is_empty (ip ++ fp) = false ->
  exponent_part ex ev ->
  parse_number (ip ++ String "." (fp ++ ex))
  = Some (int_of_digits (ip ++ fp), ev - Z.of_nat (String.length fp)).
Proof.
  intros Hi Hf Hne (Hex & Hhead & _). unfold parse_number.
  rewrite (span_digits_app ip (String "." (fp ++ ex)) Hi) by reflexivity.
  rewrite (span_digits_app fp ex Hf Hhead), Hex.
  destruct ip, fp; simpl in *; try discriminate; reflexivity.
Qed.

Lemma parse_number_whole (ip ex : string) (ev : Z) :
  string_forall is_digit ip = true ->
  is_empty ip = false ->
  exponent_part ex ev ->
  parse_number (ip ++ ex) = Some (int_of_digits ip, ev).
Proof.
  intros Hi Hne (Hex & Hhead & Hdot). unfold parse_number.
  rewrite (span_digits_app ip ex Hi Hhead).
  assert (match ex with
          | String "." t => span_digits t
          | _ => ("", ex)
          end = ("", ex)) as ->.
  { destruct ex as [|c ex]; [reflexivity|]. ascii_cases c. }
  rewrite Hex, append_nil_r. destruct ip; simpl in *; [discriminate|].
  f_equal. f_equal. lia.
Qed.

Lemma exponent_part_none : exponent_part "" 0.
Proof. repeat split. Qed.

Lemma exponent_part_printed (neg : bool) (ds : string) :
  string_forall is_digit ds = true -> is_empty ds = false ->
  exponent_part (String "e" (String (if neg then "-" else "+") ds))
    (if neg then - Z.of_N (int_of_digits ds) else Z.of_N (int_of_digits ds)).
Proof.
  intros Hd Hn. split; [now apply parse_exponent_printed|]. split; reflexivity.
Qed.

Lemma split_sign_digit (c : ascii) (r : string) :
  is_digit c = true -> split_sign (String c r) = (false, String c r).
Proof. ascii_cases c. Qed.

(** [Decimal] reads a printed number, with or without a minus sign, as the
    number printed. *)
Lemma Decimal_of_printed (neg : bool) (body : string) (co : N) (ex : Z) :
  string_forall plain_char body = true ->
  (exists d r, body = String d r /\ is_digit d = true) ->
  parse_number body = Some (co, ex) ->
  Decimal_of_str ((if neg then "-" else "") ++ body) = inr (DFinite neg co ex).
Proof.
  intros Hp (d & r & -> & Hd) Hn. unfold Decimal_of_str.
  rewrite normalise_plain by (destruct neg; simpl in *; exact Hp).
  destruct neg; simpl append.
  - cbn [split_sign]. unfold parse_unsigned. now rewrite Hn.
  - rewrite split_sign_digit by exact Hd. unfold parse_unsigned. now rewrite Hn.
Qed.

Lemma Decimal_of_str_Z (z : Z) :
  Decimal_of_str (str_of_Z z) = inr (DFinite (z <? 0) (Z.abs_N z) 0).
Proof.
  unfold str_of_Z.
  pose proof (str_of_N_digits (Z.abs_N z)) as Hd.
  pose proof (str_of_N_nonempty (Z.abs_N z)) as Hn.
  pose proof (str_of_N_value (Z.abs_N z)) as Hv.
  assert (parse_number (str_of_N (Z.abs_N z)) = Some (Z.abs_N z, 0)) as Hp.
  { rewrite <- (append_nil_r (str_of_N _)).
    rewrite (parse_number_whole _ "" 0 Hd Hn exponent_part_none). now rewrite Hv. }
  assert (exists d r, str_of_N (Z.abs_N z) = String d r /\ is_digit d = true) as Hh.
  { destruct (str_of_N (Z.abs_N z)) as [|d r]; [discriminate|].
    exists d, r. split; [reflexivity|]. simpl in Hd. now apply andb_true_iff in Hd. }
  destruct (z <? 0).
  - apply (Decimal_of_printed true _ _ _ (digits_plain _ Hd) Hh Hp).
  - apply (Decimal_of_printed false _ _ _ (digits_plain _ Hd) Hh Hp).
Qed.

Lemma take_drop (n : nat) (s : string) : take n s ++ drop n s = s.
Proof.
  revert s. induction n as [|n IH]; intros s; [reflexivity|].
  destruct s as [|c s]; [reflexivity|]. simpl. now rewrite IH.
Qed.

Lemma string_forall_take (p : ascii -> bool) (n : nat) (s : string) :
  string_forall p s = true -> string_forall p (take n s) = true.
Proof.
  revert s. induction n as [|n IH]; intros s H; [reflexivity|].
  destruct s as [|c s]; [reflexivity|]. simpl in *.
  apply andb_true_iff in H. destruct H as [Hc Hs]. now rewrite Hc, IH.
Qed.

Lemma string_forall_drop (p : ascii -> bool) (n : nat) (s : string) :
  string_forall p s = true -> string_forall p (drop n s) = true.
Proof.
  revert s. induction n as [|n IH]; intros s H; [exact H|].
  destruct s as [|c s]; [reflexivity|]. simpl in *.
  apply andb_true_iff in H. destruct H as [_ Hs]. now apply IH.
Qed.

Lemma zeros_digits (n : nat) : string_forall is_digit (repeat_char "0" n) = true.
Proof. induction n as [|n IH]; simpl; [reflexivity|exact IH]. Qed.

Lemma pad2_digits (s : string) :
  string_forall is_digit s = true -> string_forall is_digit (pad2 s) = true.
Proof. destruct s as [|c [|c' s]]; simpl; intros H; try exact H. Qed.

Lemma pad2_nonempty (s : string) : is_empty s = false -> is_empty (pad2 s) = false.
Proof. destruct s as [|c [|c' s]]; simpl; intros H; congruence. Qed.

Lemma int_of_digits_prefix (a b : string) :
  (int_of_digits a <= int_of_digits (a ++ b))%N.
Proof.
  unfold int_of_digits. rewrite digits_value_acc_app. apply digits_value_acc_ge.
Qed.

Lemma int_of_digits_suffix (a b : string) :
  (int_of_digits b <= int_of_digits (a ++ b))%N.
Proof.
  unfold int_of_digits. rewrite digits_value_acc_app.
  apply digits_value_acc_mono. lia.
Qed.

(** The text [repr] makes of the digits of a float is a printed number. *)
Lemma format_short_printed (c : positive) (k : Z) :
  exists co ex, printed_number (format_short c k) co ex.
Proof.
  unfold format_short.
  pose proof (str_of_N_digits (Npos c)) as Hd.
  pose proof (str_of_N_nonempty (Npos c)) as Hn.
  pose proof (str_of_N_value (Npos c)) as Hv.
  set (ds := str_of_N (Npos c)) in *. clearbody ds.
  set (decpt := k + Z.of_nat (String.length ds)).
  destruct ds as [|d0 r0]; [discriminate|].
  assert (is_digit d0 = true /\ string_forall is_digit r0 = true) as [Hd0 Hr0]
    by (now apply andb_true_iff in Hd).
  destruct ((decpt <=? -4) || (16 <? decpt)) eqn:Hexp.
  - (* exponent notation *)
    set (xs := pad2 (str_of_N (Z.abs_N (decpt - 1)))).
    assert (string_forall is_digit xs = true) as Hxs
      by apply pad2_digits, str_of_N_digits.
    assert (is_empty xs = false) as Hxn by apply pad2_nonempty, str_of_N_nonempty.
    set (neg := decpt - 1 <? 0).
    pose proof (exponent_part_printed neg xs Hxs Hxn) as Hex.
    set (ev := if neg then - Z.of_N (int_of_digits xs) else Z.of_N (int_of_digits xs)) in Hex.
    assert (("e" ++ (if neg then "-" else "+") ++ xs)
            = String "e" (String (if neg then "-" else "+") xs)) as Ee
      by (destruct neg; reflexivity).
    rewrite Ee. cbn [take drop].
    destruct r0 as [|d1 r1]; cbn [is_empty append].
    + exists (Npos c), ev. repeat split.
      * cbn [string_forall]. rewrite (digit_plain _ Hd0).
        destruct neg; simpl; now rewrite (digits_plain _ Hxs).
      * eauto.
      * rewrite <- Hv.
        apply (parse_number_whole (String d0 "")
                 (String "e" (String (if neg then "-" else "+") xs)) ev);
          [|reflexivity|exact Hex].
        simpl. now rewrite Hd0.
      * discriminate.
    + exists (Npos c), (ev - Z.of_nat (String.length (String d1 r1))). repeat split.
      * cbn [string_forall]. rewrite (digit_plain _ Hd0). cbn [andb].
        change (plain_char "." && string_forall plain_char
                  (String d1 r1 ++ String "e" (String (if neg then "-" else "+") xs)) = true).
        rewrite string_forall_app, (digits_plain _ Hr0).
        destruct neg; simpl; now rewrite (digits_plain _ Hxs).
      * eauto.
      * rewrite <- Hv.
        apply (parse_number_point (String d0 "") (String d1 r1)
                 (String "e" (String (if neg then "-" else "+") xs)) ev);
          [|exact Hr0|reflexivity|exact Hex].
        simpl. now rewrite Hd0.
      * discriminate.
  - destruct (decpt <=? 0) eqn:Hle.
    + (* 0.000ddd *)
      set (zs := repeat_char "0" (Z.to_nat (- decpt))).
      exists (int_of_digits ("0" ++ zs ++ String d0 r0)),
        (0 - Z.of_nat (String.length (zs ++ String d0 r0))).
      assert (string_forall is_digit (zs ++ String d0 r0) = true) as Hf
        by (rewrite string_forall_app; unfold zs; now rewrite zeros_digits).
      repeat split.
      * change ("0." ++ zs ++ String d0 r0) with (String "0" (String "." (zs ++ String d0 r0))).
        cbn [string_forall]. now rewrite (digits_plain _ Hf).
      * exists "0"%char, (String "." (zs ++ String d0 r0)). split; reflexivity.
      * change ("0." ++ zs ++ String d0 r0)
          with ("0" ++ String "." (zs ++ String d0 r0)).
        rewrite <- (append_nil_r (zs ++ String d0 r0)) at 1.
        apply parse_number_point; [reflexivity|exact Hf|reflexivity|exact exponent_part_none].
      * pose proof (int_of_digits_suffix ("0" ++ zs) (String d0 r0)) as Hs.
        rewrite append_assoc in Hs. lia.
    + destruct (Z.of_nat (String.length (String d0 r0)) <=? decpt) eqn:Hnd.
      * (* ddd000.0 *)
        set (zs := repeat_char "0" (Z.to_nat (decpt - Z.of_nat (String.length (String d0 r0))))).
        exists (int_of_digits ((String d0 r0 ++ zs) ++ "0")), (0 - Z.of_nat (String.length "0")).
        assert (string_forall is_digit (String d0 r0 ++ zs) = true) as Hi
          by (rewrite string_forall_app, Hd; unfold zs; now rewrite zeros_digits).
        assert (String d0 r0 ++ zs ++ ".0" = (String d0 r0 ++ zs) ++ String "." ("0" ++ ""))
          as -> by (now rewrite append_assoc).
        repeat split.
        -- rewrite string_forall_app, (digits_plain _ Hi). reflexivity.
        -- exists d0, ((r0 ++ zs) ++ String "." ("0" ++ "")). split; [reflexivity|exact Hd0].
        -- apply parse_number_point; [exact Hi|reflexivity| |exact exponent_part_none].
           reflexivity.
        -- pose proof (int_of_digits_prefix (String d0 r0) (zs ++ "0")) as Hs.
           rewrite <- append_assoc in Hs. lia.
      * (* ddd.ddd *)
        set (n := Z.to_nat decpt).
        assert (exists n', n = S n') as [n' En].
        { apply Z.leb_gt in Hle. exists (Nat.pred n). unfold n. lia. }
        exists (Npos c), (0 - Z.of_nat (String.length (drop n (String d0 r0)))).
        repeat split.
        -- rewrite string_forall_app.
           rewrite (digits_plain _ (string_forall_take _ n _ Hd)).
           change ("." ++ drop n (String d0 r0)) with (String "." (drop n (String d0 r0))).
           cbn [string_forall].
           now rewrite (digits_plain _ (string_forall_drop _ n _ Hd)).
        -- rewrite En. cbn [take append]. eauto.
        -- change ("." ++ drop n (String d0 r0)) with (String "." (drop n (String d0 r0))).
           rewrite <- (append_nil_r (drop n (String d0 r0))) at 1.
           rewrite (parse_number_point _ _ "" 0).
           ++ now rewrite take_drop, Hv.
           ++ now apply string_forall_take.
           ++ now apply string_forall_drop.
           ++ now rewrite take_drop.
           ++ exact exponent_part_none.
        -- discriminate.
Qed.

(** ** What a price input denotes *)

Lemma price_value_int (z : Z) :
  price_value (PInt z) = Some (DFinite (z <? 0) (Z.abs_N z) 0).
Proof. unfold price_value. simpl py_str. now rewrite Decimal_of_str_Z. Qed.

Lemma price_value_float (s : bool) (m : positive) (e : Z) :
  exists co ex,
    price_value (PFloat (S754_finite s m e)) = Some (DFinite s co ex) /\ co <> 0%N.
Proof.
  unfold price_value. simpl py_str. unfold float_repr.
  destruct (shortest_digits m e) as [c k].
  destruct (format_short_printed c k) as (co & ex & Hp & Hh & Hn & Hz).
  exists co, ex. now rewrite (Decimal_of_printed s _ co ex Hp Hh Hn).
Qed.

Lemma price_value_float_zero (s : bool) :
  price_value (PFloat (S754_zero s)) = Some (DFinite s 0 (-1)).
Proof. destruct s; reflexivity. Qed.

Lemma price_value_float_infinity (s : bool) :
  price_value (PFloat (S754_infinity s)) = Some (DInfinity s).
Proof. destruct s; reflexivity. Qed.

Lemma Decimal_of_str_bracket (r : string) :
  Decimal_of_str (String "[" r) = inl conversion_syntax.
Proof. reflexivity. Qed.

Lemma Decimal_of_str_brace (r : string) :
  Decimal_of_str (String "{" r) = inl conversion_syntax.
Proof. reflexivity. Qed.

(** [None], a bool, a list and a dict denote no number. *)
Lemma wrong_typed_no_value (v : pyvalue) : wrong_typed v -> price_value v = None.
Proof.
  destruct v as [| [] | | | | l | kvs]; simpl; intros H; try contradiction; reflexivity.
Qed.

Lemma Decimal_of_str_raises (s : string) (e : Exn) :
  Decimal_of_str s = inl e -> e = conversion_syntax.
Proof.
  unfold Decimal_of_str. destruct (split_sign _) as [neg r].
  destruct (parse_unsigned neg r); congruence.
Qed.

Lemma negative_lt_zero (d : Decimal) :
  Decimal_negative d <-> Decimal_lt_zero d = inr true.
Proof.
  destruct d as [[] c e | [] | sg sig p]; simpl; split; intros H;
    try contradiction; try discriminate; try reflexivity; try exact I.
  - apply N.eqb_neq in H. now rewrite H.
  - intros ->. discriminate.
Qed.

Lemma zero_lt_zero (d : Decimal) : Decimal_zero d -> Decimal_lt_zero d = inr false.
Proof.
  destruct d as [sg c e | sg | sg sig p]; simpl; intros H; try contradiction.
  subst c. now rewrite andb_false_r.
Qed.

(** ** The price check *)

Lemma price_block_not_number (kvs : list (string * pyvalue)) (v : pyvalue) (s : Session) :
  dict_get "price" kvs = Some v ->
  price_value v = None ->
  price_block (PDict kvs) s = (inr (inl (error_response "Invalid price format" 400)), s).
Proof.
  intros Hk Hv. unfold price_value in Hv.
  unfold price_block, try_except, bind, lift, ret. simpl py_getitem. rewrite Hk.
  destruct (Decimal_of_str (py_str v)) as [e|d] eqn:Hd.
  - now rewrite (Decimal_of_str_raises _ _ Hd).
  - destruct d; try discriminate. reflexivity.
Qed.

Lemma price_block_value (kvs : list (string * pyvalue)) (v : pyvalue) (d : Decimal)
    (s : Session) :
  dict_get "price" kvs = Some v ->
  price_value v = Some d ->
  price_block (PDict kvs) s
  = (match Decimal_lt_zero d with
     | inr true => inr (inl (error_response "Price cannot be negative" 400))
     | _ => inr (inr d)
     end, s).
Proof.
  intros Hk Hv. unfold price_value in Hv.
  unfold price_block, try_except, bind, lift, ret. simpl py_getitem. rewrite Hk.
  destruct (Decimal_of_str (py_str v)) as [e|d'] eqn:Hd; [discriminate|].
  destruct d' as [sg c ex | sg | sg sig p]; try discriminate;
    injection Hv as <-; simpl.
  - destruct (sg && negb (c =? 0)%N); reflexivity.
  - destruct sg; reflexivity.
Qed.

(** A response of the price check is the response of the request, and the
    session is untouched. *)
Lemma create_product_price_response (E : Engine) (data : pyvalue) (s : Session)
    (response : Response) :
  missing_fields required_fields data = inr [] ->
  price_block data s = (inr (inl response), s) ->
  create_product E data s = (response, s).
Proof.
  intros Hm Hp. unfold create_product, create_product_body, bind, lift.
  rewrite Hm. simpl. now rewrite Hp.
Qed.

(** Past the price check, no response is a price error. *)
Lemma create_product_past_price (E : Engine) (data : pyvalue) (s : Session) (d : Decimal) :
  missing_fields required_fields data = inr [] ->
  price_block data s = (inr (inr d), s) ->
  fst (create_product E data s) <> error_response "Invalid price format" 400 /\
  fst (create_product E data s) <> error_response "Price cannot be negative" 400.
Proof.
  intros Hm Hp. unfold create_product, create_product_body, bind, lift.
  rewrite Hm. simpl. rewrite Hp.
  unfold Product_query_filter_by_sku_first, Warehouse_query_get, session_add_product,
    session_flush, session_add_inventory, session_commit, product_id_attr, product_id_reload,
    call, bind, lift, ret.
  repeat (run_step; simpl in * ).
  all: split; unfold error_response, created_response; congruence.
Qed.

Lemma not_a_number_no_value (v : pyvalue) : not_a_number v -> price_value v = None.
Proof.
  destruct v; simpl; intros H; try contradiction; try exact H;
    now apply wrong_typed_no_value.
Qed.

Lemma negative_number_value (v : pyvalue) :
  negative_number v -> exists d, price_value v = Some d /\ Decimal_negative d.
Proof.
  destruct v as [| b | z | f | s | l | kvs]; simpl; intros H; try contradiction.
  - exists (DFinite (z <? 0) (Z.abs_N z) 0). split; [apply price_value_int|].
    apply Z.ltb_lt in H as E. rewrite E. simpl. lia.
  - destruct f as [s | [] | | [] m e]; try contradiction.
    + exists (DInfinity true). split; [apply price_value_float_infinity|exact I].
    + destruct (price_value_float true m e) as (co & ex & Hv & Hz).
      exists (DFinite true co ex). split; [exact Hv|exact Hz].
  - exact H.
Qed.

Lemma zero_number_value (v : pyvalue) :
  zero_number v -> exists d, price_value v = Some d /\ Decimal_zero d.
Proof.
  destruct v as [| b | z | f | s | l | kvs]; simpl; intros H; try contradiction.
  - subst z. exists (DFinite false 0 0). split; reflexivity.
  - destruct f as [s | | | ]; try contradiction.
    exists (DFinite s 0 (-1)). split; [apply price_value_float_zero|reflexivity].
  - exact H.
Qed.

(** C4.  In a request that holds every required field: a price that is a
    non-numeric string, [None], a bool, a list or a dict gets 400 with
    ["Invalid price format"]; a price that is a number below zero (an int,
    a float, or a string [Decimal] reads as one) gets 400 with
    ["Price cannot be negative"], a different error; a price that is zero
    passes the price check and the response is neither of the two.  In
    the two error cases the session is untouched. *)
Theorem C4_price_validation (E : Engine) (st : Store) (kvs : list (string * pyvalue))
    (vp : pyvalue) :
  missing_fields required_fields (PDict kvs) = inr [] ->
  dict_get "price" kvs = Some vp ->
  (not_a_number vp ->
   handle E st (PDict kvs)
   = (error_response "Invalid price format" 400, open_session st)) /\
  (negative_number vp ->
   handle E st (PDict kvs)
   = (error_response "Price cannot be negative" 400, open_session st)) /\
  (zero_number vp ->
   exists d,
     Decimal_zero d /\
     price_block (PDict kvs) (open_session st) = (inr (inr d), open_session st) /\
     fst (handle E st (PDict kvs)) <> error_response "Invalid price format" 400 /\
     fst (handle E st (PDict kvs)) <> error_response "Price cannot be negative" 400) /\
  error_response "Invalid price format" 400 <> error_response "Price cannot be negative" 400.
Proof.
  intros Hm Hk. repeat split.
  - intros H. apply create_product_price_response; [exact Hm|].
    apply (price_block_not_number _ _ _ Hk), not_a_number_no_value, H.
  - intros H. destruct (negative_number_value _ H) as (d & Hv & Hn).
    apply create_product_price_response; [exact Hm|].
    rewrite (price_block_value _ _ _ _ Hk Hv).
    apply negative_lt_zero in Hn. now rewrite Hn.
  - intros H. destruct (zero_number_value _ H) as (d & Hv & Hz).
    assert (price_block (PDict kvs) (open_session st) = (inr (inr d), open_session st)) as Hp.
    { rewrite (price_block_value _ _ _ _ Hk Hv). now rewrite (zero_lt_zero _ Hz). }
    exists d. split; [exact Hz|]. split; [exact Hp|].
    apply (create_product_past_price E _ _ d Hm Hp).
  - discriminate.
Qed.

Lemma C4_price_validation_witness :
  handle constraint_engine one_warehouse (PDict (priced (PStr "12 euro")))
  = (error_response "Invalid price format" 400, open_session one_warehouse) /\
  handle constraint_engine one_warehouse
    (PDict (priced (PFloat (S754_finite true 5626684784446013 (-48)))))
  = (error_response "Price cannot be negative" 400, open_session one_warehouse) /\
  fst (handle constraint_engine one_warehouse (PDict (priced (PStr "-0.00"))))
  <> error_response "Price cannot be negative" 400.
Proof.
  split; [|split].
  - apply (C4_price_validation constraint_engine one_warehouse
             (priced (PStr "12 euro")) (PStr "12 euro") eq_refl eq_refl).
    reflexivity.
  - apply (C4_price_validation constraint_engine one_warehouse
             (priced (PFloat (S754_finite true 5626684784446013 (-48)))) _ eq_refl eq_refl).
    exact I.
  - destruct (C4_price_validation constraint_engine one_warehouse
                (priced (PStr "-0.00")) (PStr "-0.00") eq_refl eq_refl)
      as (_ & _ & Hz & _).
    destruct Hz as (d & _ & _ & _ & Hn).
    + exists (DFinite true 0 (-2)). split; reflexivity.
    + exact Hn.
Defined.



(** ** The steps past the price check *)

Lemma create_product_sku_exists (E : Engine) (st : Store) (kvs : list (string * pyvalue))
    (d : Decimal) (vs : pyvalue) (p : Product) :
  let s0 := open_session st in
  missing_fields required_fields (PDict kvs) = inr [] ->
  price_block (PDict kvs) s0 = (inr (inr d), s0) ->
  dict_get "sku" kvs = Some vs ->
  fault E (log (Query_product_by_sku vs) s0) (Query_product_by_sku vs) = None ->
  find_product_by_sku vs (products st) = Some p ->
  handle E st (PDict kvs)
  = (error_response "SKU already exists" 409, log (Query_product_by_sku vs) s0).
Proof.
  intros s0 Hm Hp Hs F1 Hf. subst s0. run_past_price Hm Hp. reflexivity.
Qed.

Lemma create_product_no_warehouse (E : Engine) (st : Store) (kvs : list (string * pyvalue))
    (d : Decimal) (vs vw : pyvalue) :
  let s0 := open_session st in
  let s1 := log (Query_product_by_sku vs) s0 in
  missing_fields required_fields (PDict kvs) = inr [] ->
  price_block (PDict kvs) s0 = (inr (inr d), s0) ->
  dict_get "sku" kvs = Some vs ->
  fault E s1 (Query_product_by_sku vs) = None ->
  find_product_by_sku vs (products st) = None ->
  dict_get "warehouse_id" kvs = Some vw ->
  fault E (log (Query_warehouse_get vw) s1) (Query_warehouse_get vw) = None ->
  find_warehouse vw st = None ->
  handle E st (PDict kvs)
  = (error_response "Warehouse not found" 404, log (Query_warehouse_get vw) s1).
Proof.
  intros s0 s1 Hm Hp Hs F1 Hf Hw F2 Hn. subst s0 s1. run_past_price Hm Hp. reflexivity.
Qed.

(** A name or a sku without the method [strip]: the AttributeError reaches
    the last [except] clause, after the two queries and before any write. *)
Lemma create_product_no_strip (E : Engine) (st : Store) (kvs : list (string * pyvalue))
    (d : Decimal) (vn vs vw : pyvalue) (w : Warehouse) :
  let s0 := open_session st in
  let s1 := log (Query_product_by_sku vs) s0 in
  let s2 := log (Query_warehouse_get vw) s1 in
  missing_fields required_fields (PDict kvs) = inr [] ->
  price_block (PDict kvs) s0 = (inr (inr d), s0) ->
  dict_get "sku" kvs = Some vs ->
  fault E s1 (Query_product_by_sku vs) = None ->
  find_product_by_sku vs (products st) = None ->
  dict_get "warehouse_id" kvs = Some vw ->
  fault E s2 (Query_warehouse_get vw) = None ->
  find_warehouse vw st = Some w ->
  dict_get "name" kvs = Some vn ->
  (forall n, vn <> PStr n) \/ (forall k, vs <> PStr k) ->
  exists v,
    handle E st (PDict kvs)
    = (error_response ("Internal error: " ++ exn_str (no_attribute v "strip")) 500,
       session_rollback s2).
Proof.
  intros s0 s1 s2 Hm Hp Hs F1 Hf Hw F2 Hwh Hn Hbad. subst s0 s1 s2.
  destruct vn as [| b | z | f | n | l | kv];
    try (eexists; run_past_price Hm Hp; reflexivity).
  destruct Hbad as [Hbad|Hbad]; [now elim (Hbad n)|].
  destruct vs as [| b | z | f | k | l | kv];
    try (eexists; run_past_price Hm Hp; reflexivity).
  now elim (Hbad k).
Qed.

(** ** The sku lookup *)

(** The engine with constraints raises on no call when the sku to write is
    not stored yet and the warehouse exists. *)
Lemma constraint_engine_accepts (st : Store) (k : string) (vw vq : pyvalue)
    (p : NewProduct) (w : Warehouse) :
  sku_taken (new_sku p) (products st) = false ->
  find_warehouse vw st = Some w ->
  accepts constraint_engine st (PStr k) vw vq p.
Proof.
  intros Hfree Hw. unfold accepts. simpl. unfold warehouse_known.
  rewrite Hfree, Hw. repeat split.
Qed.

(** A sku that is stored in its normal form and supplied in another form:
    the lookup misses it, and the unique constraint stops the INSERT. *)
Lemma normalised_duplicate_not_detected (st : Store) (kvs : list (string * pyvalue))
    (n k : string) (vp vw vq : pyvalue) (d : Decimal) (w : Warehouse) :
  dict_get "name" kvs = Some (PStr n) ->
  dict_get "sku" kvs = Some (PStr k) ->
  dict_get "price" kvs = Some vp ->
  dict_get "warehouse_id" kvs = Some vw ->
  dict_get "initial_quantity" kvs = Some vq ->
  Decimal_of_str (py_str vp) = inr d ->
  Decimal_lt_zero d = inr false ->
  find_product_by_sku (PStr k) (products st) = None ->
  find_warehouse vw st = Some w ->
  sku_taken (upper (strip k)) (products st) = true ->
  fst (handle constraint_engine st (PDict kvs))
  = error_response "Database integrity error" 400 /\
  committed (snd (handle constraint_engine st (PDict kvs))) = st /\
  clean (snd (handle constraint_engine st (PDict kvs))).
Proof.
  intros Hn Hs Hp Hw Hq Hd Hlt Hfree Hwh Htaken.
  unfold find_product_by_sku in Hfree.
  unfold_handler. unfold visible_products, find_product_by_sku.
  use_eqs. rewrite app_nil_r. use_eqs. repeat split.
Qed.

(** C1, at the failing input.  With a product ["WIDGET-1"] stored, a
    request for ["widget-1"] or ["  Widget-1 "] is looked up as supplied
    and found free, although it is written as ["WIDGET-1"]: with a unique
    constraint the answer is 400 ["Database integrity error"], without one
    it is 201 and a second ["WIDGET-1"] row is stored; it is 409 in
    neither case. *)
Theorem C1_lookup_uses_raw_sku :
  let lower_case := PDict (widget "widget-1") in
  let padded := PDict (widget "  Widget-1 ") in
  upper (strip "widget-1") = product_sku widget_row /\
  upper (strip "  Widget-1 ") = product_sku widget_row /\
  find_product_by_sku (PStr "widget-1") (products widget_store) = None /\
  find_product_by_sku (PStr "  Widget-1 ") (products widget_store) = None /\
  fst (handle constraint_engine widget_store lower_case)
  = error_response "Database integrity error" 400 /\
  fst (handle constraint_engine widget_store padded)
  = error_response "Database integrity error" 400 /\
  fst (handle lenient_engine widget_store lower_case) = created_response (Some 2) /\
  map product_sku (products (committed (snd (handle lenient_engine widget_store lower_case))))
  = ["WIDGET-1"; "WIDGET-1"].
Proof. repeat split. Qed.

(** ** Success *)

(** C3, as amended.  For every dict with all required fields, a name and a
    sku that are strings, a price whose [str] is read by [Decimal] as a
    value for which [price < 0] is false, a sku that the lookup with the
    text as supplied does not find, a warehouse that exists, and a storage
    engine that raises on none of the six calls nor on the reload of the
    id after the commit: exactly one product row
    (name stripped, sku stripped and in upper case, the decimal read) and
    exactly one inventory row (the generated id, the warehouse id and the
    quantity as supplied) are committed, nothing else is left in the
    session, and the response is 201 with the message and the key
    [product_id] holding the generated id. *)
Theorem C3_success_persists_both (E : Engine) (st : Store) (kvs : list (string * pyvalue))
    (n k : string) (vp vw vq : pyvalue) (d : Decimal) (w : Warehouse) :
  dict_get "name" kvs = Some (PStr n) ->
  dict_get "sku" kvs = Some (PStr k) ->
  dict_get "price" kvs = Some vp ->
  dict_get "warehouse_id" kvs = Some vw ->
  dict_get "initial_quantity" kvs = Some vq ->
  Decimal_of_str (py_str vp) = inr d ->
  Decimal_lt_zero d = inr false ->
  find_product_by_sku (PStr k) (products st) = None ->
  find_warehouse vw st = Some w ->
  accepts E st (PStr k) vw vq (mkNewProduct (strip n) (upper (strip k)) d) ->
  let pid := next_product_id E st in
  let s' := snd (handle E st (PDict kvs)) in
  fst (handle E st (PDict kvs))
  = ([("message", PStr "Product created successfully"); ("product_id", PInt pid)], 201) /\
  products (committed s') = (products st ++ [mkProduct pid (strip n) (upper (strip k)) d])%list /\
  inventories (committed s') = (inventories st ++ [mkInventory (Some pid) vw vq])%list /\
  warehouses (committed s') = warehouses st /\
  clean s'.
Proof.
  intros Hn Hs Hp Hw Hq Hd Hlt Hf Hwh Hacc pid s'. subst s'.
  rewrite (create_product_success E st kvs n k vp vw vq d w Hn Hs Hp Hw Hq Hd Hlt Hf Hwh Hacc).
  repeat split.
Qed.

Lemma C3_success_persists_both_witness :
  let r := handle constraint_engine one_warehouse (PDict (widget " w-100 ")) in
  fst r = ([("message", PStr "Product created successfully"); ("product_id", PInt 1)], 201) /\
  products (committed (snd r)) = [mkProduct 1 "Widget" "W-100" (DFinite false 1999 (-2))] /\
  inventories (committed (snd r)) = [mkInventory (Some 1) (PInt 1) (PInt 50)] /\
  warehouses (committed (snd r)) = [mkWarehouse 1] /\
  clean (snd r).
Proof.
  apply (C3_success_persists_both constraint_engine one_warehouse (widget " w-100 ")
           "Widget" " w-100 " (PStr "19.99") (PInt 1) (PInt 50)
           (DFinite false 1999 (-2)) (mkWarehouse 1));
    try reflexivity.
  repeat split.
Defined.

(** C3 as the specification words it fails.  A name that is a number
    leaves every condition of the claim true and the answer is 500 with
    nothing stored; a commit that the storage engine fails gives 400 with
    nothing stored; and the body of a success has no key [productId]. *)
Lemma C3_counterexample :
  let data := PDict (request (PInt 5) (PStr "W-100") (PStr "19.99") (PInt 1) (PInt 50)) in
  let failing := failing_engine is_commit integrity_error in
  missing_fields required_fields data = inr [] /\
  Decimal_of_str "19.99" = inr (DFinite false 1999 (-2)) /\
  Decimal_lt_zero (DFinite false 1999 (-2)) = inr false /\
  find_product_by_sku (PStr "W-100") (products one_warehouse) = None /\
  find_warehouse (PInt 1) one_warehouse = Some (mkWarehouse 1) /\
  handle lenient_engine one_warehouse data
  = (error_response "Internal error: 'int' object has no attribute 'strip'" 500,
     session_rollback
       (log (Query_warehouse_get (PInt 1))
          (log (Query_product_by_sku (PStr "W-100")) (open_session one_warehouse)))) /\
  fst (handle failing one_warehouse (PDict (widget "W-100")))
  = error_response "Database integrity error" 400 /\
  committed (snd (handle failing one_warehouse (PDict (widget "W-100")))) = one_warehouse /\
  status_of (fst (handle lenient_engine one_warehouse (PDict (widget "W-100")))) = 201 /\
  dict_get "productId" (fst (fst (handle lenient_engine one_warehouse (PDict (widget "W-100")))))
  = None.
Proof. repeat split. Qed.

(** ** The quantity *)

(** C7.  The quantity is never looked at: for every request that is valid
    otherwise and every value of [initial_quantity], an int below zero, a
    float, a string or anything else, the answer is 201 and the inventory
    row holds the value as supplied; and every 400 answer is one of the
    four that exist, for missing fields, an unreadable price, a price
    below zero, or an integrity error of the storage engine. *)
Theorem C7_quantity_not_validated (E : Engine) (st : Store) :
  (forall (kvs : list (string * pyvalue)) (n k : string) (vp vw vq : pyvalue)
          (d : Decimal) (w : Warehouse),
      dict_get "name" kvs = Some (PStr n) ->
      dict_get "sku" kvs = Some (PStr k) ->
      dict_get "price" kvs = Some vp ->
      dict_get "warehouse_id" kvs = Some vw ->
      dict_get "initial_quantity" kvs = Some vq ->
      Decimal_of_str (py_str vp) = inr d ->
      Decimal_lt_zero d = inr false ->
      find_product_by_sku (PStr k) (products st) = None ->
      find_warehouse vw st = Some w ->
      accepts E st (PStr k) vw vq (mkNewProduct (strip n) (upper (strip k)) d) ->
      status_of (fst (handle E st (PDict kvs))) = 201 /\
      inventories (committed (snd (handle E st (PDict kvs))))
      = (inventories st ++ [mkInventory (Some (next_product_id E st)) vw vq])%list) /\
  (forall data : pyvalue,
      status_of (fst (handle E st data)) = 400 ->
      (exists missing,
          missing_fields required_fields data = inr missing /\
          fst (handle E st data)
          = error_response ("Missing fields: " ++ join ", " missing) 400) \/
      fst (handle E st data) = error_response "Invalid price format" 400 \/
      fst (handle E st data) = error_response "Price cannot be negative" 400 \/
      fst (handle E st data) = error_response "Database integrity error" 400).
Proof.
  split.
  - intros kvs n k vp vw vq d w Hn Hs Hp Hw Hq Hd Hlt Hf Hwh Hacc.
    rewrite (create_product_success E st kvs n k vp vw vq d w Hn Hs Hp Hw Hq Hd Hlt Hf Hwh Hacc).
    split; reflexivity.
  - intros data. unfold_handler.
    destruct (missing_fields required_fields data) as [e|missing] eqn:Hm.
    + simpl. destruct (exn_class_eqb _ _); simpl; intros H; [auto|discriminate].
    + repeat (run_step; simpl in * ).
      all: intros; simpl in *; try discriminate; eauto 6.
Qed.

Lemma C7_quantity_not_validated_witness :
  let below_zero := PDict (request (PStr "Widget") (PStr "W-100") (PStr "19.99") (PInt 1) (PInt (-5))) in
  let text := PDict (request (PStr "Widget") (PStr "W-100") (PStr "19.99") (PInt 1) (PStr "a few")) in
  inventories (committed (snd (handle constraint_engine one_warehouse below_zero)))
  = [mkInventory (Some 1) (PInt 1) (PInt (-5))] /\
  inventories (committed (snd (handle constraint_engine one_warehouse text)))
  = [mkInventory (Some 1) (PInt 1) (PStr "a few")] /\
  fst (handle constraint_engine one_warehouse (PDict [("initial_quantity", PInt (-5))]))
  = error_response "Missing fields: name, sku, price, warehouse_id" 400.
Proof.
  intros below_zero text.
  destruct (C7_quantity_not_validated constraint_engine one_warehouse) as [Hq H400].
  split; [|split].
  - apply (Hq (request (PStr "Widget") (PStr "W-100") (PStr "19.99") (PInt 1) (PInt (-5)))
              "Widget" "W-100" (PStr "19.99") (PInt 1) (PInt (-5))
              (DFinite false 1999 (-2)) (mkWarehouse 1)); try reflexivity.
    repeat split.
  - apply (Hq (request (PStr "Widget") (PStr "W-100") (PStr "19.99") (PInt 1) (PStr "a few"))
              "Widget" "W-100" (PStr "19.99") (PInt 1) (PStr "a few")
              (DFinite false 1999 (-2)) (mkWarehouse 1)); try reflexivity.
    repeat split.
  - destruct (H400 (PDict [("initial_quantity", PInt (-5))]) eq_refl)
      as [(missing & Hm & Hr) | [Hr | [Hr | Hr]]]; try discriminate Hr.
    reflexivity.
Defined.

(** ** The order of the steps *)

(** C6.  The steps run in the order field check, price check, sku query,
    warehouse query, writes.  A request that lacks a field gets the
    missing-fields answer whatever its price, sku and warehouse are; one
    that holds all fields and fails the price check gets the answer of the
    price check; one that passes both and whose sku is found gets 409; one
    that passes these and whose warehouse is not found gets 404.  The log
    of calls shows that nothing later ran: no call before the sku query,
    the sku query alone before the 409, the two queries alone before the
    404; and a request that passes all checks makes the six calls in
    order. *)
Theorem C6_steps_in_order (E : Engine) (st : Store) (kvs : list (string * pyvalue)) :
  let data := PDict kvs in
  let s0 := open_session st in
  (forall f l,
      missing_fields required_fields data = inr (f :: l) ->
      handle E st data
      = (error_response ("Missing fields: " ++ join ", " (f :: l)) 400, s0)) /\
  (forall response,
      missing_fields required_fields data = inr [] ->
      price_block data s0 = (inr (inl response), s0) ->
      handle E st data = (response, s0)) /\
  (forall d vs p,
      missing_fields required_fields data = inr [] ->
      price_block data s0 = (inr (inr d), s0) ->
      dict_get "sku" kvs = Some vs ->
      fault E (log (Query_product_by_sku vs) s0) (Query_product_by_sku vs) = None ->
      find_product_by_sku vs (products st) = Some p ->
      handle E st data
      = (error_response "SKU already exists" 409, log (Query_product_by_sku vs) s0)) /\
  (forall d vs vw,
      missing_fields required_fields data = inr [] ->
      price_block data s0 = (inr (inr d), s0) ->
      dict_get "sku" kvs = Some vs ->
      fault E (log (Query_product_by_sku vs) s0) (Query_product_by_sku vs) = None ->
      find_product_by_sku vs (products st) = None ->
      dict_get "warehouse_id" kvs = Some vw ->
      fault E (log (Query_warehouse_get vw) (log (Query_product_by_sku vs) s0))
        (Query_warehouse_get vw) = None ->
      find_warehouse vw st = None ->
      handle E st data
      = (error_response "Warehouse not found" 404,
         log (Query_warehouse_get vw) (log (Query_product_by_sku vs) s0))) /\
  (forall n k vp vw vq d w,
      dict_get "name" kvs = Some (PStr n) ->
      dict_get "sku" kvs = Some (PStr k) ->
      dict_get "price" kvs = Some vp ->
      dict_get "warehouse_id" kvs = Some vw ->
      dict_get "initial_quantity" kvs = Some vq ->
      Decimal_of_str (py_str vp) = inr d ->
      Decimal_lt_zero d = inr false ->
      find_product_by_sku (PStr k) (products st) = None ->
      find_warehouse vw st = Some w ->
      accepts E st (PStr k) vw vq (mkNewProduct (strip n) (upper (strip k)) d) ->
      calls (snd (handle E st data))
      = [Query_product_by_sku (PStr k); Query_warehouse_get vw;
         Session_add_product (mkNewProduct (strip n) (upper (strip k)) d);
         Session_flush;
         Session_add_inventory (mkInventory (Some (next_product_id E st)) vw vq);
         Session_commit]).
Proof.
  intros data s0. repeat split.
  - intros f l Hm. now apply create_product_missing.
  - intros response Hm Hp. now apply create_product_price_response.
  - intros d vs p Hm Hp Hs F1 Hf. now apply (create_product_sku_exists E st kvs d vs p).
  - intros d vs vw Hm Hp Hs F1 Hf Hw F2 Hn.
    now apply (create_product_no_warehouse E st kvs d vs vw).
  - intros n k vp vw vq d w Hn Hs Hp Hw Hq Hd Hlt Hf Hwh Hacc. subst data.
    now rewrite (create_product_success E st kvs n k vp vw vq d w
                   Hn Hs Hp Hw Hq Hd Hlt Hf Hwh Hacc).
Qed.

(** Requests that fail several steps at once get the answer of the first. *)
Lemma C6_steps_in_order_witness :
  handle constraint_engine widget_store
    (PDict [("sku", PStr "WIDGET-1"); ("price", PStr "free"); ("warehouse_id", PInt 9)])
  = (error_response "Missing fields: name, initial_quantity" 400, open_session widget_store) /\
  handle constraint_engine widget_store
    (PDict (request (PInt 5) (PStr "WIDGET-1") (PStr "free") (PInt 9) PNone))
  = (error_response "Invalid price format" 400, open_session widget_store) /\
  handle constraint_engine widget_store
    (PDict (request (PInt 5) (PStr "WIDGET-1") (PStr "19.99") (PInt 9) PNone))
  = (error_response "SKU already exists" 409,
     log (Query_product_by_sku (PStr "WIDGET-1")) (open_session widget_store)) /\
  handle constraint_engine widget_store
    (PDict (request (PInt 5) (PStr "W-2") (PStr "19.99") (PInt 9) PNone))
  = (error_response "Warehouse not found" 404,
     log (Query_warehouse_get (PInt 9))
       (log (Query_product_by_sku (PStr "W-2")) (open_session widget_store))).
Proof.
  split; [|split; [|split]].
  - pose proof (C6_steps_in_order constraint_engine widget_store
                  [("sku", PStr "WIDGET-1"); ("price", PStr "free"); ("warehouse_id", PInt 9)])
      as H.
    cbv zeta in H. destruct H as (H & _).
    apply (H "name" ["initial_quantity"]). reflexivity.
  - pose proof (C6_steps_in_order constraint_engine widget_store
                  (request (PInt 5) (PStr "WIDGET-1") (PStr "free") (PInt 9) PNone)) as H.
    cbv zeta in H. destruct H as (_ & H & _).
    apply H; reflexivity.
  - pose proof (C6_steps_in_order constraint_engine widget_store
                  (request (PInt 5) (PStr "WIDGET-1") (PStr "19.99") (PInt 9) PNone)) as H.
    cbv zeta in H. destruct H as (_ & _ & H & _).
    apply (H (DFinite false 1999 (-2)) (PStr "WIDGET-1") widget_row); reflexivity.
  - pose proof (C6_steps_in_order constraint_engine widget_store
                  (request (PInt 5) (PStr "W-2") (PStr "19.99") (PInt 9) PNone)) as H.
    cbv zeta in H. destruct H as (_ & _ & _ & H & _).
    apply (H (DFinite false 1999 (-2)) (PStr "W-2") (PInt 9)); reflexivity.
Defined.

(** ** Values of a wrong type *)

(** C8.  A body decoded as [None] makes the field check raise a TypeError;
    a name or a sku that is not a string, in a request that passes the
    field check, the price check and the two queries, makes [strip] raise
    an AttributeError.  In both cases the answer is 500 with
    ["Internal error: "] and the text of the exception, after a rollback
    and without any write; it is not a 400. *)
Theorem C8_type_errors_are_internal (E : Engine) (st : Store) :
  (exists e,
      missing_fields required_fields PNone = inl e /\
      exn_class_of e = TypeError /\
      handle E st PNone
      = (error_response ("Internal error: " ++ exn_str e) 500,
         session_rollback (open_session st))) /\
  (forall kvs d vn vs vw w,
      missing_fields required_fields (PDict kvs) = inr [] ->
      price_block (PDict kvs) (open_session st) = (inr (inr d), open_session st) ->
      dict_get "sku" kvs = Some vs ->
      fault E (log (Query_product_by_sku vs) (open_session st))
        (Query_product_by_sku vs) = None ->
      find_product_by_sku vs (products st) = None ->
      dict_get "warehouse_id" kvs = Some vw ->
      fault E (log (Query_warehouse_get vw) (log (Query_product_by_sku vs) (open_session st)))
        (Query_warehouse_get vw) = None ->
      find_warehouse vw st = Some w ->
      dict_get "name" kvs = Some vn ->
      (forall n, vn <> PStr n) \/ (forall k, vs <> PStr k) ->
      exists e,
        exn_class_of e = AttributeError /\
        fst (handle E st (PDict kvs))
        = error_response ("Internal error: " ++ exn_str e) 500 /\
        committed (snd (handle E st (PDict kvs))) = st /\
        clean (snd (handle E st (PDict kvs))) /\
        existsb is_write (calls (snd (handle E st (PDict kvs)))) = false /\
        last_call (calls (snd (handle E st (PDict kvs)))) = Some Session_rollback).
Proof.
  split.
  - eexists. repeat split.
  - intros kvs d vn vs vw w Hm Hp Hs F1 Hf Hw F2 Hwh Hn Hbad.
    destruct (create_product_no_strip E st kvs d vn vs vw w Hm Hp Hs F1 Hf Hw F2 Hwh Hn Hbad)
      as (v & Hr).
    exists (no_attribute v "strip"). rewrite Hr. repeat split.
Qed.

Lemma C8_type_errors_are_internal_witness :
  fst (handle constraint_engine one_warehouse PNone)
  = error_response "Internal error: argument of type 'NoneType' is not iterable" 500 /\
  status_of (fst (handle constraint_engine one_warehouse
                    (PDict (request (PInt 5) (PStr "W-100") (PStr "19.99") (PInt 1) (PInt 50)))))
  = 500 /\
  status_of (fst (handle constraint_engine one_warehouse
                    (PDict (request (PStr "Widget") (PInt 100) (PStr "19.99") (PInt 1) (PInt 50)))))
  = 500.
Proof.
  destruct (C8_type_errors_are_internal constraint_engine one_warehouse) as [HNone Hstrip].
  split; [|split].
  - destruct HNone as (e & He & _ & Hr). rewrite Hr.
    injection He as <-. reflexivity.
  - assert ((forall n, PInt 5 <> PStr n) \/ (forall k, PStr "W-100" <> PStr k)) as Hbad
      by (left; discriminate).
    destruct (Hstrip (request (PInt 5) (PStr "W-100") (PStr "19.99") (PInt 1) (PInt 50))
                (DFinite false 1999 (-2)) (PInt 5) (PStr "W-100") (PInt 1) (mkWarehouse 1)
                eq_refl eq_refl eq_refl eq_refl eq_refl eq_refl eq_refl eq_refl eq_refl Hbad)
      as (e & _ & Hr & _).
    now rewrite Hr.
  - assert ((forall n, PStr "Widget" <> PStr n) \/ (forall k, PInt 100 <> PStr k)) as Hbad
      by (right; discriminate).
    destruct (Hstrip (request (PStr "Widget") (PInt 100) (PStr "19.99") (PInt 1) (PInt 50))
                (DFinite false 1999 (-2)) (PStr "Widget") (PInt 100) (PInt 1) (mkWarehouse 1)
                eq_refl eq_refl eq_refl eq_refl eq_refl eq_refl eq_refl eq_refl eq_refl Hbad)
      as (e & _ & Hr & _).
    now rewrite Hr.
Defined.

(** ** Decimals that are not finite *)

(** C9.  ["Infinity"] is read as an infinite decimal, which is not below
    zero: the request passes the price check and, when every other check
    passes, the product is stored with that price.  ["NaN"] is read too,
    as a NaN; it is the comparison with zero that raises
    InvalidOperation, inside the guarded block, and the answer is 400
    ["Invalid price format"]. *)
Theorem C9_infinity_accepted_nan_rejected (E : Engine) (st : Store)
    (kvs : list (string * pyvalue)) :
  Decimal_of_str "Infinity" = inr (DInfinity false) /\
  Decimal_lt_zero (DInfinity false) = inr false /\
  (forall n k vw vq w,
      dict_get "name" kvs = Some (PStr n) ->
      dict_get "sku" kvs = Some (PStr k) ->
      dict_get "price" kvs = Some (PStr "Infinity") ->
      dict_get "warehouse_id" kvs = Some vw ->
      dict_get "initial_quantity" kvs = Some vq ->
      find_product_by_sku (PStr k) (products st) = None ->
      find_warehouse vw st = Some w ->
      accepts E st (PStr k) vw vq (mkNewProduct (strip n) (upper (strip k)) (DInfinity false)) ->
      status_of (fst (handle E st (PDict kvs))) = 201 /\
      products (committed (snd (handle E st (PDict kvs))))
      = (products st ++
         [mkProduct (next_product_id E st) (strip n) (upper (strip k)) (DInfinity false)])%list) /\
  Decimal_of_str "NaN" = inr (DNaN false false 0) /\
  (exists e, Decimal_lt_zero (DNaN false false 0) = inl e /\
             exn_class_of e = InvalidOperation) /\
  (missing_fields required_fields (PDict kvs) = inr [] ->
   dict_get "price" kvs = Some (PStr "NaN") ->
   handle E st (PDict kvs)
   = (error_response "Invalid price format" 400, open_session st)).
Proof.
  split; [reflexivity|]. split; [reflexivity|]. split; [|split; [reflexivity|split]].
  - intros n k vw vq w Hn Hs Hp Hw Hq Hf Hwh Hacc.
    rewrite (create_product_success E st kvs n k (PStr "Infinity") vw vq (DInfinity false) w
               Hn Hs Hp Hw Hq eq_refl eq_refl Hf Hwh Hacc).
    split; reflexivity.
  - eexists. split; reflexivity.
  - intros Hm Hp. apply create_product_price_response; [exact Hm|].
    now apply (price_block_not_number kvs (PStr "NaN")).
Qed.

Lemma C9_infinity_accepted_nan_rejected_witness :
  map product_price
    (products (committed (snd (handle constraint_engine one_warehouse
                                 (PDict (priced (PStr "Infinity")))))))
  = [DInfinity false] /\
  handle constraint_engine one_warehouse (PDict (priced (PStr "NaN")))
  = (error_response "Invalid price format" 400, open_session one_warehouse).
Proof.
  split.
  - destruct (C9_infinity_accepted_nan_rejected constraint_engine one_warehouse
                (priced (PStr "Infinity"))) as (_ & _ & H & _).
    assert (accepts constraint_engine one_warehouse (PStr "W-100") (PInt 1) (PInt 50)
              (mkNewProduct (strip "Widget") (upper (strip "W-100")) (DInfinity false)))
      as Hacc by (repeat split).
    destruct (H "Widget" "W-100" (PInt 1) (PInt 50) (mkWarehouse 1)
                eq_refl eq_refl eq_refl eq_refl eq_refl eq_refl eq_refl Hacc) as [_ Hp].
    now rewrite Hp.
  - apply (C9_infinity_accepted_nan_rejected constraint_engine one_warehouse
             (priced (PStr "NaN"))); reflexivity.
Defined.

(** ** Blank names and skus *)

Lemma lstrip_blank (s : string) : blank s = true -> lstrip s = "".
Proof.
  unfold blank. induction s as [|c s IH]; simpl; [reflexivity|].
  intros H. apply andb_true_iff in H. destruct H as [Hc Hs]. now rewrite Hc, IH.
Qed.

Lemma strip_blank (s : string) : blank s = true -> strip s = "".
Proof. intros H. unfold strip. now rewrite lstrip_blank. Qed.

(** When no stored sku normalises to the empty text, a blank sku is found
    free by the lookup. *)
Lemma blank_sku_free (k : string) (l : list Product) :
  blank k = true ->
  (forall p, In p l -> upper (strip (product_sku p)) <> "") ->
  find_product_by_sku (PStr k) l = None.
Proof.
  intros Hb Hl. unfold find_product_by_sku.
  destruct (find _ l) as [p|] eqn:Hf; [|reflexivity].
  apply find_some in Hf. destruct Hf as [Hin Heq]. simpl in Heq.
  apply String.eqb_eq in Heq. elim (Hl p Hin).
  rewrite <- Heq. now rewrite (strip_blank _ Hb).
Qed.

(** C10.  A name or a sku that is empty or white space only passes the
    field check and every later check.  With a blank name, and with a
    blank sku when no stored sku normalises to the empty text, a request
    that is valid otherwise succeeds with 201 and the product row holds
    the empty string as its name, respectively as its sku. *)
Theorem C10_blank_name_or_sku (E : Engine) (st : Store) (kvs : list (string * pyvalue))
    (n k : string) (vp vw vq : pyvalue) (d : Decimal) (w : Warehouse) :
  dict_get "name" kvs = Some (PStr n) ->
  dict_get "sku" kvs = Some (PStr k) ->
  dict_get "price" kvs = Some vp ->
  dict_get "warehouse_id" kvs = Some vw ->
  dict_get "initial_quantity" kvs = Some vq ->
  Decimal_of_str (py_str vp) = inr d ->
  Decimal_lt_zero d = inr false ->
  find_warehouse vw st = Some w ->
  accepts E st (PStr k) vw vq (mkNewProduct (strip n) (upper (strip k)) d) ->
  blank n = true \/ blank k = true ->
  (if blank k
   then forall p, In p (products st) -> upper (strip (product_sku p)) <> ""
   else find_product_by_sku (PStr k) (products st) = None) ->
  missing_fields required_fields (PDict kvs) = inr [] /\
  status_of (fst (handle E st (PDict kvs))) = 201 /\
  products (committed (snd (handle E st (PDict kvs))))
  = (products st ++
     [mkProduct (next_product_id E st)
        (if blank n then "" else strip n)
        (if blank k then "" else upper (strip k)) d])%list.
Proof.
  intros Hn Hs Hp Hw Hq Hd Hlt Hwh Hacc Hblank Hfree.
  assert (find_product_by_sku (PStr k) (products st) = None) as Hf.
  { destruct (blank k) eqn:Hk; [now apply blank_sku_free|exact Hfree]. }
  split; [exact (missing_none _ _ _ _ _ _ Hn Hs Hp Hw Hq)|].
  rewrite (create_product_success E st kvs n k vp vw vq d w Hn Hs Hp Hw Hq Hd Hlt Hf Hwh Hacc).
  split; [reflexivity|]. simpl. do 3 f_equal.
  - destruct (blank n) eqn:Hbn; [now apply strip_blank|reflexivity].
  - destruct (blank k) eqn:Hbk; [now rewrite strip_blank|reflexivity].
Qed.

Lemma C10_blank_name_or_sku_witness :
  let data := request (PStr "   ") (PStr "") (PStr "19.99") (PInt 1) (PInt 50) in
  status_of (fst (handle constraint_engine widget_store (PDict data))) = 201 /\
  products (committed (snd (handle constraint_engine widget_store (PDict data))))
  = [widget_row; mkProduct 2 "" "" (DFinite false 1999 (-2))].
Proof.
  intros data.
  assert (accepts constraint_engine widget_store (PStr "") (PInt 1) (PInt 50)
            (mkNewProduct (strip "   ") (upper (strip "")) (DFinite false 1999 (-2))))
    as Hacc by (repeat split).
  assert (forall p, In p (products widget_store) -> upper (strip (product_sku p)) <> "")
    as Hfree by (simpl; intros p [<-|[]]; discriminate).
  destruct (C10_blank_name_or_sku constraint_engine widget_store data
              "   " "" (PStr "19.99") (PInt 1) (PInt 50) (DFinite false 1999 (-2))
              (mkWarehouse 1) eq_refl eq_refl eq_refl eq_refl eq_refl eq_refl eq_refl
              eq_refl Hacc (or_introl eq_refl) Hfree) as (_ & H1 & H2).
  split; [exact H1|exact H2].
Defined.

(** * Further properties of the handler *)

(** ** What a response tells about the request *)

Lemma py_getitem_inv (data : pyvalue) (k : string) (v : pyvalue) :
  py_getitem data k = inr v ->
  exists kvs, data = PDict kvs /\ dict_get k kvs = Some v.
Proof.
  destruct data as [| b | z | f | s | l | kvs]; simpl; try discriminate.
  destruct (dict_get k kvs) as [v'|] eqn:E; [|discriminate].
  intros H. injection H as <-. now exists kvs.
Qed.

Lemma py_strip_inv (v : pyvalue) (s : string) :
  py_strip v = inr s -> exists n, v = PStr n /\ s = strip n.
Proof.
  destruct v; simpl; try discriminate. intros H. injection H as <-. eauto.
Qed.

(** A 201 is given to none but a request that passed every check and that
    the storage engine accepted. *)
Lemma created_inv (E : Engine) (st : Store) (data : pyvalue) :
  status_of (fst (handle E st data)) = 201 ->
  exists kvs n k vp vw vq d w,
    data = PDict kvs /\
    dict_get "name" kvs = Some (PStr n) /\
    dict_get "sku" kvs = Some (PStr k) /\
    dict_get "price" kvs = Some vp /\
    dict_get "warehouse_id" kvs = Some vw /\
    dict_get "initial_quantity" kvs = Some vq /\
    Decimal_of_str (py_str vp) = inr d /\
    Decimal_lt_zero d = inr false /\
    find_product_by_sku (PStr k) (products st) = None /\
    find_warehouse vw st = Some w /\
    accepts E st (PStr k) vw vq (mkNewProduct (strip n) (upper (strip k)) d).
Proof.
  unfold_handler.
  repeat (run_step; simpl in * ).
  all: intros H; simpl in H; try discriminate H.
  clear H.
  destruct (py_getitem_inv _ _ _ Heqr0) as (kvs & -> & Hp).
  repeat match goal with
         | H : py_getitem (PDict kvs) _ = inr _ |- _ =>
             apply py_getitem_inv in H; destruct H as (? & Hk & H);
             injection Hk as <-
         end.
  repeat match goal with
         | H : py_strip _ = inr _ |- _ =>
             apply py_strip_inv in H; destruct H as (? & -> & ->)
         end.
  unfold visible_products in *. simpl in *. rewrite app_nil_r in *.
  repeat match goal with
         | H1 : ?x = Some ?a, H2 : ?x = Some ?b |- _ =>
             rewrite H1 in H2; injection H2 as <-
         end.
  do 8 eexists. repeat split; try eassumption.
Qed.

(** The committed rows change only when the commit has succeeded: the
    request then passed every check, and one product row and one
    inventory row were added.  Otherwise the session is the one the
    request found, but for the log. *)
Lemma commit_inv (E : Engine) (st : Store) (data : pyvalue) :
  (exists l, snd (handle E st data) = mkSession st None None None l) \/
  (exists kvs n k vp vw vq d w l,
      data = PDict kvs /\
      dict_get "name" kvs = Some (PStr n) /\
      dict_get "sku" kvs = Some (PStr k) /\
      dict_get "warehouse_id" kvs = Some vw /\
      dict_get "initial_quantity" kvs = Some vq /\
      dict_get "price" kvs = Some vp /\
      Decimal_of_str (py_str vp) = inr d /\
      Decimal_lt_zero d = inr false /\
      find_product_by_sku (PStr k) (products st) = None /\
      find_warehouse vw st = Some w /\
      snd (handle E st data)
      = mkSession
          (mkStore (products st ++
                    [mkProduct (next_product_id E st) (strip n) (upper (strip k)) d])
                   (inventories st ++ [mkInventory (Some (next_product_id E st)) vw vq])
                   (warehouses st))
          None None None l).
Proof.
  unfold_handler.
  repeat (run_step; simpl in * ).
  all: try (left; eexists; reflexivity).
  all: right.
  all: match goal with
       | H : py_getitem ?x "price" = inr _ |- _ =>
           let kvs := fresh "kvs" in
           destruct (py_getitem_inv _ _ _ H) as (kvs & -> & ?);
           repeat match goal with
                  | H' : py_getitem (PDict kvs) _ = inr _ |- _ =>
                      apply py_getitem_inv in H'; destruct H' as (? & Hk & H');
                      injection Hk as <-
                  end
       end.
  all: repeat match goal with
              | H : py_strip _ = inr _ |- _ =>
                  apply py_strip_inv in H; destruct H as (? & -> & ->)
              end.
  all: unfold visible_products in *; simpl in *; rewrite app_nil_r in *.
  all: repeat match goal with
              | H1 : ?x = Some ?a, H2 : ?x = Some ?b |- _ =>
                  rewrite H1 in H2; injection H2 as <-
              end.
  all: do 9 eexists; repeat split; try eassumption.
Qed.

(** X1.  Every response has one of five shapes: the 201 with the message
    and an int under [product_id], a 400 with an error text, the 404, the
    409, or a 500 whose text starts with ["Internal error: "]. *)
Theorem X1_response_shapes (E : Engine) (st : Store) (data : pyvalue) :
  let r := fst (handle E st data) in
  (exists pid,
      r = ([("message", PStr "Product created successfully");
            ("product_id", PInt pid)], 201)) \/
  (exists msg, r = error_response msg 400) \/
  r = error_response "Warehouse not found" 404 \/
  r = error_response "SKU already exists" 409 \/
  (exists msg, r = error_response ("Internal error: " ++ msg) 500).
Proof.
  unfold_handler.
  repeat (run_step; simpl in * ).
  all: first
    [ left; eexists; reflexivity
    | right; left; eexists; reflexivity
    | right; right; left; reflexivity
    | right; right; right; left; reflexivity
    | right; right; right; right; eexists; reflexivity ].
Qed.

(** X2.  A 409 is given only when a stored product has exactly the sku
    text of the request, character for character; the sku query is then
    the only storage call and nothing is written. *)
Theorem X2_conflict_means_exact_match (E : Engine) (st : Store) (data : pyvalue) :
  status_of (fst (handle E st data)) = 409 ->
  exists kvs k p,
    data = PDict kvs /\
    dict_get "sku" kvs = Some (PStr k) /\
    In p (products st) /\ product_sku p = k /\
    handle E st data
    = (error_response "SKU already exists" 409,
       log (Query_product_by_sku (PStr k)) (open_session st)).
Proof.
  unfold_handler.
  repeat (run_step; simpl in * ).
  all: intros H; simpl in H; try discriminate H.
  clear H.
  destruct (py_getitem_inv _ _ _ Heqr3) as (kvs & -> & Hs).
  unfold visible_products, find_product_by_sku in *. simpl in *.
  rewrite app_nil_r in *.
  apply find_some in Heqo0. destruct Heqo0 as [Hin Heq].
  destruct p0 as [| | | | k | |]; simpl in Heq; try discriminate.
  apply String.eqb_eq in Heq. subst k.
  exists kvs, (product_sku p1), p1. repeat split; assumption.
Qed.

Lemma X2_conflict_means_exact_match_witness :
  exists kvs k p,
    PDict (widget "WIDGET-1") = PDict kvs /\
    dict_get "sku" kvs = Some (PStr k) /\
    In p (products widget_store) /\ product_sku p = k /\
    handle constraint_engine widget_store (PDict (widget "WIDGET-1"))
    = (error_response "SKU already exists" 409,
       log (Query_product_by_sku (PStr k)) (open_session widget_store)).
Proof.
  apply (X2_conflict_means_exact_match constraint_engine widget_store
           (PDict (widget "WIDGET-1"))).
  reflexivity.
Defined.

(** X3.  A 404 is given only when the value under [warehouse_id] is not
    the id of a stored warehouse: it is no int, or no warehouse row has
    that id.  The two queries are then the only storage calls, in that
    order, and the committed rows are unchanged. *)
Theorem X3_not_found_means_no_warehouse (E : Engine) (st : Store) (data : pyvalue) :
  status_of (fst (handle E st data)) = 404 ->
  exists kvs vs vw,
    data = PDict kvs /\
    dict_get "sku" kvs = Some vs /\
    dict_get "warehouse_id" kvs = Some vw /\
    (forall z w, vw = PInt z -> In w (warehouses st) -> warehouse_id w <> z) /\
    handle E st data
    = (error_response "Warehouse not found" 404,
       log (Query_warehouse_get vw) (log (Query_product_by_sku vs) (open_session st))).
Proof.
  unfold_handler.
  repeat (run_step; simpl in * ).
  all: intros H; simpl in H; try discriminate H.
  clear H.
  destruct (py_getitem_inv _ _ _ Heqr3) as (kvs & -> & Hs).
  destruct (py_getitem_inv _ _ _ Heqr4) as (kvs' & Hk & Hw).
  injection Hk as <-.
  exists kvs, p0, p1. repeat split; try assumption.
  intros z w -> Hin Heq. simpl in Heqo2.
  pose proof (find_none _ _ Heqo2 w Hin) as Hn. simpl in Hn.
  apply Z.eqb_neq in Hn. contradiction.
Qed.

Lemma X3_not_found_means_no_warehouse_witness :
  exists kvs vs vw,
    PDict (request (PStr "Widget") (PStr "W-2") (PStr "19.99") (PStr "1") (PInt 50))
    = PDict kvs /\
    dict_get "sku" kvs = Some vs /\
    dict_get "warehouse_id" kvs = Some vw /\
    (forall z w, vw = PInt z -> In w (warehouses widget_store) -> warehouse_id w <> z) /\
    handle constraint_engine widget_store
      (PDict (request (PStr "Widget") (PStr "W-2") (PStr "19.99") (PStr "1") (PInt 50)))
    = (error_response "Warehouse not found" 404,
       log (Query_warehouse_get vw)
         (log (Query_product_by_sku vs) (open_session widget_store))).
Proof.
  apply (X3_not_found_means_no_warehouse constraint_engine widget_store
           (PDict (request (PStr "Widget") (PStr "W-2") (PStr "19.99") (PStr "1") (PInt 50)))).
  reflexivity.
Defined.

(** ** Bodies that are no JSON object *)

Lemma missing_fields_sequence (fields : list string) (data : pyvalue) :
  sequence data -> exists l, missing_fields fields data = inr l.
Proof.
  intros H. induction fields as [|f r [l IH]]; simpl; [eauto|].
  rewrite IH. destruct data; try contradiction; simpl; eauto.
Qed.

(** X4.  A body that is [None], a bool, an int or a float makes the field
    check raise: the answer is 500 with the name of the type in the text,
    after a rollback and no other storage call.  A body that is a list or
    a string never reaches the storage layer and is answered 400: with the
    missing names when it does not hold all five, with
    ["Invalid price format"] when it holds them all. *)
Theorem X4_body_not_an_object (E : Engine) (st : Store) (data : pyvalue) :
  (scalar data ->
   handle E st data
   = (error_response
        ("Internal error: argument of type '" ++ type_name data ++ "' is not iterable") 500,
      session_rollback (open_session st))) /\
  (sequence data ->
   snd (handle E st data) = open_session st /\
   exists missing,
     missing_fields required_fields data = inr missing /\
     fst (handle E st data)
     = match missing with
       | [] => error_response "Invalid price format" 400
       | _ => error_response ("Missing fields: " ++ join ", " missing) 400
       end).
Proof.
  split.
  - destruct data; simpl; intros H; try contradiction; reflexivity.
  - intros H. destruct (missing_fields_sequence required_fields data H) as [l Hl].
    destruct l as [|f l].
    + assert (price_block data (open_session st)
              = (inr (inl (error_response "Invalid price format" 400)), open_session st))
        as Hp by (destruct data; try contradiction; reflexivity).
      unfold handle. rewrite (create_product_price_response E data _ _ Hl Hp).
      split; [reflexivity|]. exists []. now split.
    + unfold handle. rewrite (create_product_missing E data _ f l Hl).
      split; [reflexivity|]. exists (f :: l). now split.
Qed.

Lemma X4_body_not_an_object_witness :
  handle constraint_engine one_warehouse (PInt 7)
  = (error_response "Internal error: argument of type 'int' is not iterable" 500,
     session_rollback (open_session one_warehouse)) /\
  fst (handle constraint_engine one_warehouse
         (PList [PStr "name"; PStr "sku"; PStr "price"; PStr "warehouse_id";
                 PStr "initial_quantity"]))
  = error_response "Invalid price format" 400 /\
  fst (handle constraint_engine one_warehouse (PStr "the name and the price"))
  = error_response "Missing fields: sku, warehouse_id, initial_quantity" 400.
Proof.
  split; [|split].
  - apply (X4_body_not_an_object constraint_engine one_warehouse (PInt 7)). exact I.
  - destruct (X4_body_not_an_object constraint_engine one_warehouse
                (PList [PStr "name"; PStr "sku"; PStr "price"; PStr "warehouse_id";
                        PStr "initial_quantity"])) as [_ H].
    destruct (H I) as (_ & missing & Hm & Hr).
    injection Hm as <-. exact Hr.
  - destruct (X4_body_not_an_object constraint_engine one_warehouse
                (PStr "the name and the price")) as [_ H].
    destruct (H I) as (_ & missing & Hm & Hr).
    injection Hm as <-. exact Hr.
Defined.

(** ** What a 201 leaves behind *)

(** X5.  Whenever the answer is 201, for any body and any storage engine,
    exactly one product row and one inventory row were added after the
    rows that were there; the inventory row holds the id of the product
    row, which is the id in the response, and the warehouse id and the
    quantity of the request as they came; the product row holds the name
    stripped and the sku stripped and in upper case. *)
Theorem X5_created_means_linked_rows (E : Engine) (st : Store) (data : pyvalue) :
  status_of (fst (handle E st data)) = 201 ->
  exists row inv n k,
    products (committed (snd (handle E st data))) = (products st ++ [row])%list /\
    inventories (committed (snd (handle E st data))) = (inventories st ++ [inv])%list /\
    inventory_product_id inv = Some (product_id row) /\
    fst (handle E st data) = created_response (Some (product_id row)) /\
    py_getitem data "warehouse_id" = inr (inventory_warehouse_id inv) /\
    py_getitem data "initial_quantity" = inr (inventory_quantity inv) /\
    py_getitem data "name" = inr (PStr n) /\ product_name row = strip n /\
    py_getitem data "sku" = inr (PStr k) /\ product_sku row = upper (strip k).
Proof.
  intros H.
  destruct (created_inv E st data H)
    as (kvs & n & k & vp & vw & vq & d & w & -> & Hn & Hs & Hp & Hw & Hq & Hd & Hlt
        & Hf & Hwh & Hacc).
  rewrite (create_product_success E st kvs n k vp vw vq d w Hn Hs Hp Hw Hq Hd Hlt Hf Hwh Hacc).
  exists (mkProduct (next_product_id E st) (strip n) (upper (strip k)) d),
    (mkInventory (Some (next_product_id E st)) vw vq), n, k.
  simpl. rewrite Hn, Hs, Hw, Hq. repeat split.
Qed.

Lemma X5_created_means_linked_rows_witness :
  exists row inv n k,
    products (committed (snd (handle constraint_engine widget_store (PDict (widget " w-2 ")))))
    = (products widget_store ++ [row])%list /\
    inventories (committed (snd (handle constraint_engine widget_store (PDict (widget " w-2 ")))))
    = (inventories widget_store ++ [inv])%list /\
    inventory_product_id inv = Some (product_id row) /\
    fst (handle constraint_engine widget_store (PDict (widget " w-2 ")))
    = created_response (Some (product_id row)) /\
    py_getitem (PDict (widget " w-2 ")) "warehouse_id" = inr (inventory_warehouse_id inv) /\
    py_getitem (PDict (widget " w-2 ")) "initial_quantity" = inr (inventory_quantity inv) /\
    py_getitem (PDict (widget " w-2 ")) "name" = inr (PStr n) /\ product_name row = strip n /\
    py_getitem (PDict (widget " w-2 ")) "sku" = inr (PStr k) /\
    product_sku row = upper (strip k).
Proof.
  apply (X5_created_means_linked_rows constraint_engine widget_store (PDict (widget " w-2 "))).
  reflexivity.
Defined.

(** ** The normal form of a sku *)

Lemma is_space_upper (c : ascii) : is_space (upper_char c) = is_space c.
Proof. ascii_cases c. Qed.

Lemma upper_char_idem (c : ascii) : upper_char (upper_char c) = upper_char c.
Proof. ascii_cases c. Qed.

Lemma upper_idem (s : string) : upper (upper s) = upper s.
Proof.
  unfold upper. induction s as [|c s IH]; simpl; [reflexivity|].
  now rewrite upper_char_idem, IH.
Qed.

Lemma is_empty_upper (s : string) : is_empty (upper s) = is_empty s.
Proof. destruct s; reflexivity. Qed.

Lemma lstrip_upper (s : string) : lstrip (upper s) = upper (lstrip s).
Proof.
  induction s as [|c s IH]; [reflexivity|].
  change (upper (String c s)) with (String (upper_char c) (upper s)).
  cbn [lstrip]. rewrite is_space_upper. destruct (is_space c); [exact IH|reflexivity].
Qed.

Lemma rstrip_upper (s : string) : rstrip (upper s) = upper (rstrip s).
Proof.
  induction s as [|c s IH]; [reflexivity|].
  change (upper (String c s)) with (String (upper_char c) (upper s)).
  cbn [rstrip]. rewrite is_space_upper, IH, is_empty_upper.
  destruct (is_space c && is_empty (rstrip s)); reflexivity.
Qed.

(** [strip] and [upper] can be applied in either order. *)
Lemma strip_upper (s : string) : strip (upper s) = upper (strip s).
Proof. unfold strip. now rewrite lstrip_upper, rstrip_upper. Qed.

Lemma rstrip_idem (s : string) : rstrip (rstrip s) = rstrip s.
Proof.
  induction s as [|c s IH]; [reflexivity|]. cbn [rstrip].
  destruct (is_space c && is_empty (rstrip s)) eqn:E; [reflexivity|].
  cbn [rstrip]. now rewrite IH, E.
Qed.

Lemma lstrip_head (s : string) :
  match lstrip s with
  | EmptyString => True
  | String c _ => is_space c = false
  end.
Proof.
  induction s as [|c s IH]; simpl; [exact I|].
  destruct (is_space c) eqn:E; [exact IH|exact E].
Qed.

Lemma lstrip_rstrip_head (s : string) :
  match s with
  | EmptyString => True
  | String c _ => is_space c = false
  end ->
  lstrip (rstrip s) = rstrip s.
Proof.
  destruct s as [|c s]; [reflexivity|]. intros H. cbn [rstrip].
  rewrite H. simpl. now rewrite H.
Qed.

Lemma strip_idem (s : string) : strip (strip s) = strip s.
Proof.
  unfold strip. rewrite (lstrip_rstrip_head _ (lstrip_head s)). apply rstrip_idem.
Qed.

(** What the handler writes as a sku is in normal form. *)
Lemma normal_sku_written (k : string) : normal_sku (upper (strip k)).
Proof.
  unfold normal_sku. now rewrite strip_upper, strip_idem, upper_idem.
Qed.

Lemma created_or_unchanged (E : Engine) (st : Store) (data : pyvalue) :
  (exists n k d,
      products (committed (snd (handle E st data)))
      = (products st ++ [mkProduct (next_product_id E st) (strip n) (upper (strip k)) d])%list /\
      Decimal_lt_zero d = inr false) \/
  committed (snd (handle E st data)) = st.
Proof.
  destruct (commit_inv E st data)
    as [(l & ->) | (kvs & n & k & vp & vw & vq & d & w & l & _ & _ & _ & _ & _ & _ & _ & Hlt
                    & _ & _ & ->)].
  - now right.
  - left. exists n, k, d. now split.
Qed.

(** X6.  The handler keeps the skus in normal form: if every stored sku is
    unchanged by stripping and upper-casing, the same holds after any
    request, whatever its answer and whatever the storage engine does. *)
Theorem X6_skus_stay_normal (E : Engine) (st : Store) (data : pyvalue) :
  (forall p, In p (products st) -> normal_sku (product_sku p)) ->
  forall p, In p (products (committed (snd (handle E st data)))) ->
            normal_sku (product_sku p).
Proof.
  intros Hst p Hin.
  destruct (created_or_unchanged E st data) as [(n & k & d & Hp & _) | Hu].
  - rewrite Hp in Hin. apply in_app_or in Hin. destruct Hin as [Hin | [<- | []]].
    + now apply Hst.
    + apply normal_sku_written.
  - rewrite Hu in Hin. now apply Hst.
Qed.

Lemma X6_skus_stay_normal_witness :
  normal_sku (product_sku (mkProduct 2 "Widget" "W-2" (DFinite false 1999 (-2)))).
Proof.
  apply (X6_skus_stay_normal constraint_engine widget_store (PDict (widget "  w-2 "))).
  - intros p [<- | []]. reflexivity.
  - right. left. reflexivity.
Defined.

(** X7.  The handler never stores a price below zero or a NaN: if for
    every stored price the comparison [price < 0] is defined and false,
    the same holds after any request. *)
Theorem X7_prices_stay_non_negative (E : Engine) (st : Store) (data : pyvalue) :
  (forall p, In p (products st) -> Decimal_lt_zero (product_price p) = inr false) ->
  forall p, In p (products (committed (snd (handle E st data)))) ->
            Decimal_lt_zero (product_price p) = inr false.
Proof.
  intros Hst p Hin.
  destruct (created_or_unchanged E st data) as [(n & k & d & Hp & Hd) | Hu].
  - rewrite Hp in Hin. apply in_app_or in Hin. destruct Hin as [Hin | [<- | []]].
    + now apply Hst.
    + exact Hd.
  - rewrite Hu in Hin. now apply Hst.
Qed.

Lemma X7_prices_stay_non_negative_witness :
  Decimal_lt_zero (product_price (mkProduct 2 "Widget" "W-100" (DFinite false 5 (-1))))
  = inr false.
Proof.
  apply (X7_prices_stay_non_negative constraint_engine widget_store
           (PDict (priced (PStr "0.5")))).
  - intros p [<- | []]. reflexivity.
  - right. left. reflexivity.
Defined.

(** ** Rollback, and the order of the calls *)

(** X8.  The handler calls the rollback exactly when an exception reached
    one of the outer [except] clauses, that is when the answer is a 500 or
    the 400 ["Database integrity error"]; the rollback is then the latest
    call.  The responses of the checks and the 201 come without one. *)
Theorem X8_rollback_iff_exception (E : Engine) (st : Store) (data : pyvalue) :
  let r := fst (handle E st data) in
  let l := calls (snd (handle E st data)) in
  (existsb is_rollback l = true <->
   status_of r = 500 \/ r = error_response "Database integrity error" 400) /\
  (existsb is_rollback l = true -> last_call l = Some Session_rollback).
Proof.
  unfold_handler.
  repeat (run_step; simpl in * ).
  all: split; [split|]; simpl; intros H; try reflexivity; try discriminate H;
    try (left; reflexivity); try (right; reflexivity);
    try (destruct H as [H | H]; [discriminate H | inversion H]).
Qed.

(** X9.  The calls of a request are an initial part of the sequence sku
    query, warehouse query, add, flush, add, commit, followed by at most
    one rollback: no call is made twice, none out of order, and no write
    before both queries. *)
Theorem X9_calls_in_sequence (E : Engine) (st : Store) (data : pyvalue) :
  exists n,
    (n <= 6)%nat /\
    (map call_rank (calls (snd (handle E st data))) = seq 0 n \/
     map call_rank (calls (snd (handle E st data))) = (seq 0 n ++ [6%nat])%list).
Proof.
  unfold_handler.
  repeat (run_step; simpl in * ).
  all: first
    [ exists 0%nat; split; [lia|]; first [left; reflexivity | right; reflexivity]
    | exists 1%nat; split; [lia|]; first [left; reflexivity | right; reflexivity]
    | exists 2%nat; split; [lia|]; first [left; reflexivity | right; reflexivity]
    | exists 3%nat; split; [lia|]; first [left; reflexivity | right; reflexivity]
    | exists 4%nat; split; [lia|]; first [left; reflexivity | right; reflexivity]
    | exists 5%nat; split; [lia|]; first [left; reflexivity | right; reflexivity]
    | exists 6%nat; split; [lia|]; first [left; reflexivity | right; reflexivity] ].
Qed.

(** X10.  After any request the session holds nothing uncommitted, the
    warehouses are the ones before, and the product and inventory rows
    are the ones before followed by what was added: either nothing to
    both, or one row to each.  A product row never comes without its
    inventory row, and no row is removed or changed. *)
Theorem X10_rows_added_in_pairs (E : Engine) (st : Store) (data : pyvalue) :
  let s' := snd (handle E st data) in
  clean s' /\
  warehouses (committed s') = warehouses st /\
  exists lp li,
    products (committed s') = (products st ++ lp)%list /\
    inventories (committed s') = (inventories st ++ li)%list /\
    List.length lp = List.length li /\ (List.length lp <= 1)%nat.
Proof.
  destruct (commit_inv E st data)
    as [(l & ->) | (kvs & n & k & vp & vw & vq & d & w & l & _ & _ & _ & _ & _ & _ & _ & _
                    & _ & _ & ->)].
  - simpl. repeat split. exists [], []. rewrite !app_nil_r. repeat split. simpl. lia.
  - simpl. repeat split. do 2 eexists. repeat split. simpl. lia.
Qed.

(** ** The checks and the storage layer *)

Lemma price_block_pure (data : pyvalue) (s s0 : Session) :
  price_block data s = (fst (price_block data s0), s).
Proof.
  unfold price_block, try_except, bind, lift, ret.
  destruct (py_getitem data "price") as [e|v]; simpl.
  - destruct (exn_class_eqb _ _ || _); reflexivity.
  - destruct (Decimal_of_str (py_str v)) as [e|d]; simpl.
    + destruct (exn_class_eqb _ _ || _); reflexivity.
    + destruct (Decimal_lt_zero d) as [e|[]]; simpl; try reflexivity.
      destruct (exn_class_eqb _ _ || _); reflexivity.
Qed.

(** A request that made no storage call was answered by the field check
    or by the price check. *)
Lemma no_call_inv (E : Engine) (st : Store) (data : pyvalue) :
  calls (snd (handle E st data)) = [] ->
  (exists f l,
      missing_fields required_fields data = inr (f :: l) /\
      fst (handle E st data)
      = error_response ("Missing fields: " ++ join ", " (f :: l)) 400) \/
  (exists r,
      missing_fields required_fields data = inr [] /\
      price_block data (open_session st) = (inr (inl r), open_session st) /\
      fst (handle E st data) = r).
Proof.
  unfold_handler.
  destruct (missing_fields required_fields data) as [e|[|f l]] eqn:Hm.
  - simpl. destruct (exn_class_eqb _ _); simpl; discriminate.
  - simpl. repeat (run_step; simpl in * ).
    all: intros H; simpl in H; try discriminate H.
    all: right; eexists; repeat split.
  - simpl. intros _. left. exists f, l. now split.
Qed.

(** X11.  The field check and the price check look at the body alone.  A
    request that was answered without a storage call gets the same answer
    from any other storage engine on any other store, again without a
    storage call. *)
Theorem X11_checks_ignore_storage (E E' : Engine) (st st' : Store) (data : pyvalue) :
  calls (snd (handle E st data)) = [] ->
  handle E' st' data = (fst (handle E st data), open_session st').
Proof.
  intros H. destruct (no_call_inv E st data H) as [(f & l & Hm & Hr) | (r & Hm & Hp & Hr)].
  - rewrite Hr. unfold handle. now apply create_product_missing.
  - rewrite Hr. unfold handle. apply create_product_price_response; [exact Hm|].
    rewrite (price_block_pure data _ (open_session st)). now rewrite Hp.
Qed.

Lemma X11_checks_ignore_storage_witness :
  handle lenient_engine widget_store (PDict (priced (PInt (-3))))
  = (fst (handle (failing_engine is_commit integrity_error) one_warehouse
            (PDict (priced (PInt (-3))))),
     open_session widget_store).
Proof.
  apply (X11_checks_ignore_storage (failing_engine is_commit integrity_error)
           lenient_engine one_warehouse widget_store (PDict (priced (PInt (-3))))).
  reflexivity.
Defined.

(** ** The same request again *)

Lemma find_app_new {A} (f : A -> bool) (l : list A) (x : A) :
  find f l = None -> f x = true -> find f (l ++ [x]) = Some x.
Proof.
  intros Hl Hx. induction l as [|a l IH]; simpl in *.
  - now rewrite Hx.
  - destruct (f a); [discriminate|]. now apply IH.
Qed.

Lemma price_value_read (v : pyvalue) (d : Decimal) :
  Decimal_of_str (py_str v) = inr d ->
  Decimal_lt_zero d = inr false ->
  price_value v = Some d.
Proof.
  intros Hd Hlt. unfold price_value. rewrite Hd.
  destruct d; simpl in *; try reflexivity. discriminate.
Qed.

(** X12.  A request that succeeded with a sku already in normal form, sent
    again, is answered 409: the lookup finds the row just written, the
    sku query is the only call and the rows stay as they are.  The one
    condition on the storage engine is that the query does not fail. *)
Theorem X12_repeat_is_conflict (E : Engine) (st : Store) (kvs : list (string * pyvalue))
    (n k : string) (vp vw vq : pyvalue) (d : Decimal) (w : Warehouse) :
  dict_get "name" kvs = Some (PStr n) ->
  dict_get "sku" kvs = Some (PStr k) ->
  dict_get "price" kvs = Some vp ->
  dict_get "warehouse_id" kvs = Some vw ->
  dict_get "initial_quantity" kvs = Some vq ->
  Decimal_of_str (py_str vp) = inr d ->
  Decimal_lt_zero d = inr false ->
  find_product_by_sku (PStr k) (products st) = None ->
  find_warehouse vw st = Some w ->
  accepts E st (PStr k) vw vq (mkNewProduct (strip n) (upper (strip k)) d) ->
  normal_sku k ->
  let st' := committed (snd (handle E st (PDict kvs))) in
  fault E (log (Query_product_by_sku (PStr k)) (open_session st'))
    (Query_product_by_sku (PStr k)) = None ->
  handle E st' (PDict kvs)
  = (error_response "SKU already exists" 409,
     log (Query_product_by_sku (PStr k)) (open_session st')).
Proof.
  intros Hn Hs Hp Hw Hq Hd Hlt Hf Hwh Hacc Hnorm st' F. subst st'.
  rewrite (create_product_success E st kvs n k vp vw vq d w
             Hn Hs Hp Hw Hq Hd Hlt Hf Hwh Hacc) in *.
  simpl snd in *. simpl committed in *.
  apply (create_product_sku_exists E _ kvs d (PStr k)
           (mkProduct (next_product_id E st) (strip n) (upper (strip k)) d)).
  - exact (missing_none _ _ _ _ _ _ Hn Hs Hp Hw Hq).
  - rewrite (price_block_value _ _ _ _ Hp (price_value_read _ _ Hd Hlt)).
    now rewrite Hlt.
  - exact Hs.
  - exact F.
  - simpl. unfold find_product_by_sku in *. apply find_app_new; [exact Hf|].
    simpl. rewrite Hnorm. apply String.eqb_refl.
Qed.

Lemma X12_repeat_is_conflict_witness :
  let st' := committed (snd (handle constraint_engine one_warehouse (PDict (widget "W-100")))) in
  handle constraint_engine st' (PDict (widget "W-100"))
  = (error_response "SKU already exists" 409,
     log (Query_product_by_sku (PStr "W-100")) (open_session st')).
Proof.
  assert (accepts constraint_engine one_warehouse (PStr "W-100") (PInt 1) (PInt 50)
            (mkNewProduct (strip "Widget") (upper (strip "W-100")) (DFinite false 1999 (-2))))
    as Hacc by (repeat split).
  exact (X12_repeat_is_conflict constraint_engine one_warehouse (widget "W-100")
           "Widget" "W-100" (PStr "19.99") (PInt 1) (PInt 50) (DFinite false 1999 (-2))
           (mkWarehouse 1) eq_refl eq_refl eq_refl eq_refl eq_refl eq_refl eq_refl
           eq_refl eq_refl Hacc eq_refl eq_refl).
Defined.

(** ** Prices that are JSON numbers *)

Lemma json_number_value (v : pyvalue) :
  json_number v -> exists d, price_value v = Some d.
Proof.
  destruct v as [| b | z | f | s | l | kvs]; simpl; intros H; try contradiction.
  - eexists. apply price_value_int.
  - destruct f as [s | s | | s m e]; try contradiction.
    + eexists. apply price_value_float_zero.
    + eexists. apply price_value_float_infinity.
    + destruct (price_value_float s m e) as (co & ex & Hv & _). eauto.
Qed.

(** X13.  A price sent as a JSON number is never answered with
    ["Invalid price format"], whatever its size or sign: the text [str]
    makes of an int or of a float is always read by [Decimal].  The one
    exception is the float NaN, which is read and then fails the
    comparison. *)
Theorem X13_numbers_are_readable (E : Engine) (st : Store) (kvs : list (string * pyvalue))
    (vp : pyvalue) :
  missing_fields required_fields (PDict kvs) = inr [] ->
  dict_get "price" kvs = Some vp ->
  (json_number vp ->
   fst (handle E st (PDict kvs)) <> error_response "Invalid price format" 400) /\
  (vp = PFloat S754_nan ->
   handle E st (PDict kvs) = (error_response "Invalid price format" 400, open_session st)).
Proof.
  intros Hm Hk. split.
  - intros Hj. destruct (json_number_value vp Hj) as [d Hv].
    pose proof (price_block_value kvs vp d (open_session st) Hk Hv) as Hp.
    destruct (Decimal_lt_zero d) as [e|[]] eqn:Hlt.
    + now apply (create_product_past_price E _ _ d Hm Hp).
    + unfold handle. rewrite (create_product_price_response E _ _ _ Hm Hp). discriminate.
    + now apply (create_product_past_price E _ _ d Hm Hp).
  - intros ->. apply create_product_price_response; [exact Hm|].
    now apply (price_block_not_number kvs (PFloat S754_nan)).
Qed.

Lemma X13_numbers_are_readable_witness :
  fst (handle constraint_engine one_warehouse
         (PDict (priced (PFloat (S754_finite false 5626684784446013 (-48))))))
  <> error_response "Invalid price format" 400 /\
  handle constraint_engine one_warehouse (PDict (priced (PFloat S754_nan)))
  = (error_response "Invalid price format" 400, open_session one_warehouse).
Proof.
  split.
  - apply (X13_numbers_are_readable constraint_engine one_warehouse
             (priced (PFloat (S754_finite false 5626684784446013 (-48)))) _ eq_refl eq_refl).
    exact I.
  - apply (X13_numbers_are_readable constraint_engine one_warehouse
             (priced (PFloat S754_nan)) _ eq_refl eq_refl).
    reflexivity.
Defined.

(** ** References and uniqueness *)

(** X14.  The handler keeps the references whole by its own checks: if
    every inventory row refers to a stored product and to a stored
    warehouse, the same holds after any request, also with a storage
    engine that has no foreign keys. *)
Theorem X14_references_stay_whole (E : Engine) (st : Store) (data : pyvalue) :
  (forall i, In i (inventories st) -> inventory_linked st i) ->
  forall i, In i (inventories (committed (snd (handle E st data)))) ->
            inventory_linked (committed (snd (handle E st data))) i.
Proof.
  intros Hst i Hin.
  destruct (commit_inv E st data)
    as [(l & Hu) | (kvs & n & k & vp & vw & vq & d & w & l & _ & _ & _ & _ & _ & _ & _ & _
                    & _ & Hwh & Hu)];
    rewrite Hu in *; simpl in Hin |- *.
  - now apply Hst.
  - apply in_app_or in Hin. destruct Hin as [Hin | [<- | []]].
    + destruct (Hst i Hin) as [(p & Hp' & Hid) (w' & Hw')]. split.
      * exists p. split; [apply in_or_app; now left|exact Hid].
      * exists w'. destruct (inventory_warehouse_id i); exact Hw'.
    + split.
      * eexists. split; [apply in_or_app; right; left; reflexivity|reflexivity].
      * exists w. simpl. destruct vw; exact Hwh.
Qed.

Lemma X14_references_stay_whole_witness :
  inventory_linked
    (committed (snd (handle lenient_engine widget_store (PDict (widget "W-2")))))
    (mkInventory (Some 2) (PInt 1) (PInt 50)).
Proof.
  apply (X14_references_stay_whole lenient_engine widget_store (PDict (widget "W-2"))).
  - intros i [<- | []]. split.
    + exists widget_row. split; [left; reflexivity|reflexivity].
    + exists (mkWarehouse 1). reflexivity.
  - right. left. reflexivity.
Defined.





(** ** An exception after the commit *)

(** X16.  A failure answer leaves new rows behind in one case only: the
    commit succeeded and the read of [product.id] that follows it raised.
    Then the engine failed that reload, the product row and the inventory
    row are both committed and linked, and the rollback came after the
    commit, as the latest call. *)
Theorem X16_rows_survive_only_late_failure (E : Engine) (st : Store) (data : pyvalue) :
  status_of (fst (handle E st data)) <> 201 ->
  committed (snd (handle E st data)) <> st ->
  ~ reloads E /\
  (exists l, calls (snd (handle E st data)) = (l ++ [Session_commit; Session_rollback])%list) /\
  exists row inv,
    products (committed (snd (handle E st data))) = (products st ++ [row])%list /\
    inventories (committed (snd (handle E st data))) = (inventories st ++ [inv])%list /\
    inventory_product_id inv = Some (product_id row).
Proof.
  unfold_handler.
  repeat (run_step; simpl in * ).
  all: intros H1 H2; simpl in *; try congruence.
  all: split;
    [ intros HE;
      match goal with
      | H : fault _ _ Product_id_reload = Some _ |- _ => rewrite HE in H; discriminate H
      end
    | split;
      [ eexists [_; _; _; _; _]; reflexivity
      | do 2 eexists; repeat split ] ].
Qed.

Lemma X16_rows_survive_only_late_failure_witness :
  let late := handle (failing_engine is_reload connection_lost) one_warehouse
                (PDict (widget "W-100")) in
  ~ reloads (failing_engine is_reload connection_lost) /\
  (exists l, calls (snd late) = (l ++ [Session_commit; Session_rollback])%list) /\
  exists row inv,
    products (committed (snd late)) = (products one_warehouse ++ [row])%list /\
    inventories (committed (snd late)) = (inventories one_warehouse ++ [inv])%list /\
    inventory_product_id inv = Some (product_id row).
Proof.
  apply (X16_rows_survive_only_late_failure (failing_engine is_reload connection_lost)
           one_warehouse (PDict (widget "W-100"))).
  - vm_compute. discriminate.
  - vm_compute. discriminate.
Defined.
